(** * SakshiEnrolledLearningObjects: a shallow embedding of the React widget

    The component of
    [ui.frontend/src/almLib/components/SakshiEnrolledLearningObjects/SakshiEnrolledLearningObjects.tsx]
    is embedded as Rocq functions:

    - JavaScript strings are Rocq strings; a character stands for one UTF-16
      code unit of the Latin-1 range, and the string built-ins the component
      calls ([trim], [split], [startsWith], [substring], [toLowerCase],
      [includes]) are written out on them;
    - dynamically typed values (the parsed cookie, the axios response) are
      [JsVal]s with JavaScript's truthiness, property access and string
      conversion;
    - an [async] function is a computation in the monad [M], whose results
      can be a normal completion, a [return], a thrown value or a suspension
      at an [await];
    - React is an event loop ([step]) that runs the handlers of the rendered
      view and renders again after every event. *)

From Stdlib Require Import String Ascii List Bool Arith Lia DecimalString.
From Stdlib Require DecimalNat DecimalFacts.
Set Warnings "-register-all".
From ExtLib Require Import Structures.Monad.
Import ListNotations.
Import MonadNotation.
Local Open Scope string_scope.
Local Open Scope nat_scope.
Local Open Scope monad_scope.

(* ===================================================================== *)
(** ** String built-ins *)
(* ===================================================================== *)

Module JsString.

(** WhiteSpace and LineTerminator code units below 256 (what
    [String.prototype.trim] strips): TAB, LF, VT, FF, CR, SP, NBSP. *)
Definition isWhiteSpace (c : ascii) : bool :=
  let n := nat_of_ascii c in
  ((9 <=? n) && (n <=? 13)) || (n =? 32) || (n =? 160).

Fixpoint trimStart (s : string) : string :=
  match s with
  | EmptyString => EmptyString
  | String c r => if isWhiteSpace c then trimStart r else s
  end.

Fixpoint trimEnd (s : string) : string :=
  match s with
  | EmptyString => EmptyString
  | String c r =>
      match trimEnd r with
      | EmptyString => if isWhiteSpace c then EmptyString else String c EmptyString
      | r' => String c r'
      end
  end.

Definition trim (s : string) : string := trimEnd (trimStart s).

(** [s.split(sep)] for a one-character separator. *)
Fixpoint split (sep : ascii) (s : string) : list string :=
  match s with
  | EmptyString => [EmptyString]
  | String c r =>
      if Ascii.eqb c sep then EmptyString :: split sep r
      else match split sep r with
           | h :: t => String c h :: t
           | [] => [String c EmptyString]
           end
  end.

(** [s.startsWith(p)] *)
Definition startsWith (s p : string) : bool := String.prefix p s.

(** [s.substring(a)] and [s.substring(a, b)]: indices are clamped to the
    length and swapped when [a > b]. *)
Definition substring (s : string) (a b : nat) : string :=
  let len := String.length s in
  let lo := Nat.min (Nat.min a b) len in
  let hi := Nat.min (Nat.max a b) len in
  String.substring lo (hi - lo) s.

Definition substringFrom (s : string) (a : nat) : string :=
  substring s a (String.length s).

(** [toLowerCase] on one code unit: A-Z, and the Latin-1 capitals
    U+00C0..U+00DE except the multiplication sign U+00D7. *)
Definition lowerChar (c : ascii) : ascii :=
  let n := nat_of_ascii c in
  if ((65 <=? n) && (n <=? 90))
     || ((192 <=? n) && (n <=? 222) && negb (n =? 215))
  then ascii_of_nat (n + 32) else c.

Fixpoint toLowerCase (s : string) : string :=
  match s with
  | EmptyString => EmptyString
  | String c r => String (lowerChar c) (toLowerCase r)
  end.

(** [s.includes(sub)] *)
Fixpoint includes (s sub : string) : bool :=
  String.prefix sub s
  || match s with
     | EmptyString => false
     | String _ r => includes r sub
     end.

(** [String(n)] for a non-negative integer. *)
Definition ofNat (n : nat) : string := NilZero.string_of_uint (Nat.to_uint n).

Definition isEmpty (s : string) : bool :=
  match s with EmptyString => true | _ => false end.

Fixpoint join (sep : string) (l : list string) : string :=
  match l with
  | [] => EmptyString
  | [x] => x
  | x :: r => x ++ sep ++ join sep r
  end.

End JsString.

(** The one-character string holding a double quote (for JSON text). *)
Definition dquote : string := String (ascii_of_nat 34) EmptyString.


(* ===================================================================== *)
(** ** Dynamically typed values *)
(* ===================================================================== *)

(** What [JSON.parse] and axios hand to the component. A number is held as
    its canonical rendering [String(n)]: the component only tests numbers for
    truth, compares one with [200] and splices them into messages. An [Error]
    object is held as its [name] and [message]. *)
Inductive JsVal : Type :=
| VUndefined
| VNull
| VBool (b : bool)
| VNum (repr : string)
| VStr (s : string)
| VArr (items : list JsVal)
| VObj (props : list (string * JsVal))
| VError (name message : string).

(** The outcome of a call that can throw. *)
Inductive JsResult (A : Type) : Type :=
| Ok (a : A)
| Err (thrown : JsVal).
Arguments Ok {A} a.
Arguments Err {A} thrown.

Module Js.

(** ToBoolean *)
Definition truthy (v : JsVal) : bool :=
  match v with
  | VUndefined | VNull => false
  | VBool b => b
  | VNum r => negb (r =? "0")%string && negb (r =? "NaN")%string
  | VStr s => negb (JsString.isEmpty s)
  | VArr _ | VObj _ | VError _ _ => true
  end.

(** Truthiness of a [string | null] and of a [string | undefined]. *)
Definition truthyStr (o : option string) : bool :=
  match o with
  | Some s => negb (JsString.isEmpty s)
  | None => false
  end.

(** [a || b] on optional strings with a string default. *)
Definition orElse (o : option string) (dflt : string) : string :=
  if truthyStr o then match o with Some s => s | None => dflt end else dflt.

(** ToString, as a template literal applies it. *)
Fixpoint toString (v : JsVal) : string :=
  match v with
  | VUndefined => "undefined"
  | VNull => "null"
  | VBool true => "true"
  | VBool false => "false"
  | VNum r => r
  | VStr s => s
  | VArr items =>
      JsString.join ","
        (map (fun x => match x with
                       | VUndefined | VNull => EmptyString
                       | _ => toString x
                       end) items)
  | VObj _ => "[object Object]"
  | VError n m =>
      if JsString.isEmpty m then n
      else if JsString.isEmpty n then m
      else n ++ ": " ++ m
  end.

Fixpoint lookup (p : string) (props : list (string * JsVal)) : JsVal :=
  match props with
  | [] => VUndefined
  | (k, v) :: rest => if (k =? p)%string then v else lookup p rest
  end.

Definition typeError (v : JsVal) (p : string) : JsVal :=
  VError "TypeError"
    ("Cannot read properties of " ++ toString v ++ " (reading '" ++ p ++ "')").

(** [v.p] for the property names the component reads; none of them but
    [length], [name] and [message] is a built-in property of a value. *)
Definition getProp (v : JsVal) (p : string) : JsResult JsVal :=
  match v with
  | VUndefined | VNull => Err (typeError v p)
  | VObj props => Ok (lookup p props)
  | VError n m =>
      if (p =? "name")%string then Ok (VStr n)
      else if (p =? "message")%string then Ok (VStr m)
      else Ok VUndefined
  | VStr s =>
      if (p =? "length")%string then Ok (VNum (JsString.ofNat (String.length s)))
      else Ok VUndefined
  | VArr items =>
      if (p =? "length")%string then Ok (VNum (JsString.ofNat (List.length items)))
      else Ok VUndefined
  | VBool _ | VNum _ => Ok VUndefined
  end.

(** [v[i]] *)
Definition getIndex (v : JsVal) (i : nat) : JsResult JsVal :=
  match v with
  | VUndefined | VNull => Err (typeError v (JsString.ofNat i))
  | VArr items => Ok (nth i items VUndefined)
  | VStr s =>
      match String.get i s with
      | Some c => Ok (VStr (String c EmptyString))
      | None => Ok VUndefined
      end
  | VObj props => Ok (lookup (JsString.ofNat i) props)
  | VBool _ | VNum _ | VError _ _ => Ok VUndefined
  end.

(** [v?.p] *)
Definition optProp (v : JsVal) (p : string) : JsResult JsVal :=
  match v with
  | VUndefined | VNull => Ok VUndefined
  | _ => getProp v p
  end.

(** [v === n] for a number literal [n] given by its rendering. *)
Definition strictEqualsNumber (v : JsVal) (n : string) : bool :=
  match v with
  | VNum r => (r =? n)%string
  | _ => false
  end.

(** [encodeURIComponent] on one code unit: the unreserved marks, digits and
    letters stay, every other code unit becomes the percent-escapes of its
    UTF-8 bytes. *)
Definition hexDigit (n : nat) : ascii :=
  if n <? 10 then ascii_of_nat (48 + n) else ascii_of_nat (55 + n).

Definition percent (byte : nat) : string :=
  String "%" (String (hexDigit (byte / 16)) (String (hexDigit (byte mod 16)) EmptyString)).

Definition uriUnreserved (n : nat) : bool :=
  ((48 <=? n) && (n <=? 57)) || ((65 <=? n) && (n <=? 90)) || ((97 <=? n) && (n <=? 122))
  || existsb (Nat.eqb n) [45; 95; 46; 33; 126; 42; 39; 40; 41].

Definition encodeUnit (c : ascii) : string :=
  let n := nat_of_ascii c in
  if uriUnreserved n then String c EmptyString
  else if n <? 128 then percent n
  else percent (192 + n / 64) ++ percent (128 + n mod 64).

Fixpoint encodeURIComponent (s : string) : string :=
  match s with
  | EmptyString => EmptyString
  | String c r => encodeUnit c ++ encodeURIComponent r
  end.

End Js.

(* ===================================================================== *)
(** ** The models the component imports *)
(* ===================================================================== *)

(** The fields of [PrimeLearningObject] and of what hangs off it that the
    component reads. A field the code guards with [?.], [&&], [||] or a
    truth test is optional here. *)
Module Models.

Record PrimeLocalizationMetadata : Type := {
  name : option string;
  description : option string
}.

Record PrimeLearningObjectInstance : Type := {
  instance_id : string
}.

Record PrimeLearningObject : Type := {
  id : string;
  localizedMetadata : option (list PrimeLocalizationMetadata);
  imageUrl : option string;
  instances : option (list PrimeLearningObjectInstance)
}.

Record JsonApiResponse : Type := {
  learningObjectList : option (list PrimeLearningObject)
}.

End Models.

Module AlertType.
Inductive t : Type := success | error.
End AlertType.

(* ===================================================================== *)
(** ** Component state, the world around it, and effects *)
(* ===================================================================== *)

(** The six [useState] cells. [learningObjects_ref] stands for the identity
    of the array held in [learningObjects]: [useMemo] compares its
    dependency by reference, and every [setLearningObjects] call of the
    component stores a new array. *)
Record State : Type := mkState {
  userId : option JsVal;
  learningObjects : list Models.PrimeLearningObject;
  learningObjects_ref : nat;
  isLoading : bool;
  error : option string;
  apiCallInProgress : bool;
  searchTerm : string
}.

Inductive Request : Type :=
| AxiosGet (url : string) (headers : list (string * string))
| RestAdapterGet (url : string) (params : list (string * JsVal)).

Inductive Effect : Type :=
| Issued (r : Request)
| Alert (show : bool) (message : string) (type : AlertType.t) (autoClose : bool)
| ConsoleError (label : string) (x : JsVal)
| Navigation (href : string)
| UnhandledRejection (x : JsVal).

(** What a handler can touch: the component's state cells (as the setters
    leave them for the next render), [document.cookie], the effects so far
    (oldest first) and the [defaultPrevented] flag of the event being
    dispatched. *)
Record Env : Type := mkEnv {
  comp : State;
  document_cookie : string;
  effects : list Effect;
  defaultPrevented : bool
}.

(** How an awaited promise settles. *)
Inductive Settlement : Type :=
| Fulfilled (v : JsVal)
| Rejected (x : JsVal).

(** The result of running a piece of an [async] function body: it completes
    normally, executes [return;], throws, or stops at an [await] with the
    rest of the body as a continuation that is run, on the environment of
    that later moment, when the promise has settled. *)
Inductive Res (A : Type) : Type :=
| Normal (a : A) (e : Env)
| Returned (e : Env)
| Thrown (x : JsVal) (e : Env)
| Awaiting (r : Request) (e : Env) (k : Settlement -> Env -> Res A).
Arguments Normal {A} a e.
Arguments Returned {A} e.
Arguments Thrown {A} x e.
Arguments Awaiting {A} r e k.

Definition M (A : Type) : Type := Env -> Res A.

Fixpoint bindRes {A B : Type} (r : Res A) (f : A -> M B) : Res B :=
  match r with
  | Normal a e => f a e
  | Returned e => Returned e
  | Thrown x e => Thrown x e
  | Awaiting q e k => Awaiting q e (fun s e' => bindRes (k s e') f)
  end.

#[export] Instance Monad_M : Monad M := {
  ret := fun A (a : A) (e : Env) => Normal a e;
  bind := fun A B (m : M A) (f : A -> M B) (e : Env) => bindRes (m e) f
}.

(** [try { .. } catch (x) { .. }] *)
Fixpoint catchRes {A : Type} (r : Res A) (handler : JsVal -> M A) : Res A :=
  match r with
  | Thrown x e => handler x e
  | Awaiting q e k => Awaiting q e (fun s e' => catchRes (k s e') handler)
  | Normal a e => Normal a e
  | Returned e => Returned e
  end.

(** [try { .. } finally { .. }]: the [finally] block runs on every way out
    of the block, and the way out stands unless the [finally] block itself
    leaves abruptly. *)
Fixpoint finallyRes {A : Type} (r : Res A) (fin : M unit) : Res A :=
  match r with
  | Normal a e => bindRes (fin e) (fun _ e' => Normal a e')
  | Returned e => bindRes (fin e) (fun _ e' => Returned e')
  | Thrown x e => bindRes (fin e) (fun _ e' => Thrown x e')
  | Awaiting q e k => Awaiting q e (fun s e' => finallyRes (k s e') fin)
  end.

Definition try_catch {A : Type} (body : M A) (handler : JsVal -> M A) : M A :=
  fun e => catchRes (body e) handler.

Definition try_catch_finally {A : Type} (body : M A) (handler : JsVal -> M A)
    (fin : M unit) : M A :=
  fun e => finallyRes (catchRes (body e) handler) fin.

(** [return;] *)
Definition js_return {A : Type} : M A := fun e => Returned e.

(** [await p] for the promise of a request just issued. *)
Definition await (q : Request) : M JsVal :=
  fun e =>
    Awaiting q (mkEnv (comp e) (document_cookie e) (effects e ++ [Issued q]) (defaultPrevented e))
      (fun s e' => match s with
                   | Fulfilled v => Normal v e'
                   | Rejected x => Thrown x e'
                   end).

(** A call that returns or throws. *)
Definition lift {A : Type} (r : JsResult A) : M A :=
  fun e => match r with
           | Ok a => Normal a e
           | Err x => Thrown x e
           end.

Definition emit (x : Effect) : M unit :=
  fun e => Normal tt (mkEnv (comp e) (document_cookie e) (effects e ++ [x]) (defaultPrevented e)).

Definition setState (f : State -> State) : M unit :=
  fun e => Normal tt (mkEnv (f (comp e)) (document_cookie e) (effects e) (defaultPrevented e)).

Definition setUserId (v : option JsVal) : M unit :=
  setState (fun s => mkState v (learningObjects s) (learningObjects_ref s) (isLoading s)
                       (error s) (apiCallInProgress s) (searchTerm s)).

Definition setLearningObjects (l : list Models.PrimeLearningObject) : M unit :=
  setState (fun s => mkState (userId s) l (S (learningObjects_ref s)) (isLoading s)
                       (error s) (apiCallInProgress s) (searchTerm s)).

Definition setIsLoading (b : bool) : M unit :=
  setState (fun s => mkState (userId s) (learningObjects s) (learningObjects_ref s) b
                       (error s) (apiCallInProgress s) (searchTerm s)).

Definition setError (msg : option string) : M unit :=
  setState (fun s => mkState (userId s) (learningObjects s) (learningObjects_ref s) (isLoading s)
                       msg (apiCallInProgress s) (searchTerm s)).

Definition setApiCallInProgress (b : bool) : M unit :=
  setState (fun s => mkState (userId s) (learningObjects s) (learningObjects_ref s) (isLoading s)
                       (error s) b (searchTerm s)).

Definition setSearchTerm (t : string) : M unit :=
  setState (fun s => mkState (userId s) (learningObjects s) (learningObjects_ref s) (isLoading s)
                       (error s) (apiCallInProgress s) t).

(** [event.preventDefault()] *)
Definition preventDefault : M unit :=
  fun e => Normal tt (mkEnv (comp e) (document_cookie e) (effects e) true).

(** [almAlert(show, message, type, autoClose)] of [useAlert] *)
Definition almAlert (show : bool) (message : string) (type : AlertType.t) (autoClose : bool)
    : M unit :=
  emit (Alert show message type autoClose).

Definition console_error (label : string) (x : JsVal) : M unit :=
  emit (ConsoleError label x).

(* ===================================================================== *)
(** ** The component *)
(* ===================================================================== *)

(** The [for] loop of [getCookieByName] over the split cookie string. *)
Fixpoint getCookieByName_loop (name : string) (cookies : list string) : option string :=
  match cookies with
  | [] => None
  | cookie :: rest =>
      let cookie := JsString.trim cookie in
      if JsString.startsWith cookie (name ++ "=")
      then Some (JsString.substringFrom cookie (String.length name + 1))
      else getCookieByName_loop name rest
  end.

(** [getCookieByName(name)], on the value of [document.cookie]. *)
Definition getCookieByName (document_cookie name : string) : option string :=
  getCookieByName_loop name (JsString.split ";" document_cookie).

Definition getCookie (name : string) : M (option string) :=
  fun e => Normal (getCookieByName (document_cookie e) name) e.

(** What the component takes from outside this file: the host's
    [JSON.parse], and [JsonApiParse] and [getALMConfig().primeApiURL] of the
    library's utilities. *)
Record Host : Type := {
  JSON_parse : string -> JsResult JsVal;
  JsonApiParse : JsVal -> JsResult Models.JsonApiResponse;
  primeApiURL : string
}.

Definition getEnrolledLearningObjects (host : Host) (id : JsVal)
    : M (option Models.JsonApiResponse) :=
  try_catch
    (let baseApiUrl := primeApiURL host in
     let params :=
       [("userId", id);
        ("filter.loTypes", VStr "course");
        ("page[limit]", VStr "100");
        ("sort", VStr "name");
        ("filter.ignoreEnhancedLP", VStr "true")] in
     response <- await (RestAdapterGet (baseApiUrl ++ "/learningObjects?") params) ;;
     parsed <- lift (JsonApiParse host response) ;;
     ret (Some parsed))
    (fun e =>
       setError (Some ("Error loading learning objects: " ++ Js.toString e)) ;;
       console_error "Error while loading learning objects:" e ;;
       ret None).

Definition fetchData (host : Host) : M unit :=
  setIsLoading true ;;
  try_catch_finally
    (cookieValue <- getCookie "user" ;;
     if negb (Js.truthyStr cookieValue) then
       setError (Some "User data not found") ;;
       setIsLoading false ;;
       js_return
     else
       parsedJson <- lift (JSON_parse host (match cookieValue with Some v => v | None => "" end)) ;;
       data <- lift (Js.optProp parsedJson "data") ;;
       id <- lift (Js.optProp data "id") ;;
       if Js.truthy id then
         data <- lift (Js.getProp parsedJson "data") ;;
         userId <- lift (Js.getProp data "id") ;;
         setUserId (Some userId) ;;
         response <- getEnrolledLearningObjects host userId ;;
         match response with
         | Some {| Models.learningObjectList := Some l |} => setLearningObjects l
         | _ => setLearningObjects []
         end
       else
         setError (Some "User ID not found in the cookie data"))
    (fun error =>
       setError (Some ("Error processing data: " ++ Js.toString error)) ;;
       console_error "Error in fetchData:" error)
    (setIsLoading false).

(** A rendered course tile: the [key] of the outer [div], the [href] and
    [onClick] of the link, the image's [src], [alt] and what [onError] puts
    into [src], the title and the description paragraph. [onClick] is the
    closure [(e) => checkCourseAvailability(course.id, e)]; the event [e] is
    the one whose [defaultPrevented] flag is in the environment. *)
Record Card : Type := mkCard {
  key : nat;
  href : string;
  onClick : M unit;
  img_src : string;
  img_alt : string;
  img_onError_src : string;
  title : string;
  descriptionText : string
}.

(** [l.map((x, index) => f x index)] *)
Fixpoint map_from {A B : Type} (f : A -> nat -> B) (index : nat) (l : list A) : list B :=
  match l with
  | [] => []
  | x :: r => f x index :: map_from f (S index) r
  end.

Definition js_map {A B : Type} (f : A -> nat -> B) (l : list A) : list B :=
  map_from f 0 l.

(** *** The memoized grid (lines 95-184) *)

(** [checkCourseAvailability] of the [courseGrid] callback; the parameter
    [apiCallInProgress] is the value of the state cell in the render that
    created the closure. *)
Definition courseGrid_checkCourseAvailability (apiCallInProgress : bool) (courseId : string)
    : M unit :=
  if apiCallInProgress then js_return
  else
    preventDefault ;;
    setApiCallInProgress true ;;
    try_catch_finally
      (almCpToken <- getCookie "alm_cp_token" ;;
       if negb (Js.truthyStr almCpToken) then
         almAlert true "AUTHENTICATION TOKEN NOT FOUND" AlertType.error true ;;
         setApiCallInProgress false ;;
         js_return
       else
         let apiUrl := "https://learningmanager.adobe.com/primeapi/v2/learningObjects/"
                       ++ Js.encodeURIComponent courseId in
         response <- await (AxiosGet apiUrl
                              [("Accept", "application/vnd.api+json");
                               ("Authorization",
                                "oauth " ++ match almCpToken with Some t => t | None => "null" end)]) ;;
         data <- lift (Js.getProp response "data") ;;
         data <- lift (Js.getProp data "data") ;;
         attributes <- lift (Js.getProp data "attributes") ;;
         localizedMetadata <- lift (Js.getProp attributes "localizedMetadata") ;;
         metadata <- lift (Js.getIndex localizedMetadata 0) ;;
         courseName <- lift (Js.getProp metadata "name") ;;
         status <- lift (Js.getProp response "status") ;;
         available <-
           (if Js.strictEqualsNumber status "200" then
              data <- lift (Js.getProp response "data") ;;
              data <- lift (Js.getProp data "data") ;;
              relationships <- lift (Js.getProp data "relationships") ;;
              enrollment <- lift (Js.getProp relationships "enrollment") ;;
              ret (Js.truthy enrollment)
            else ret false) ;;
         if available then
           almAlert true ("COURSE " ++ Js.toString courseName ++ " IS AVAILABLE FOR YOU!")
             AlertType.success true
         else
           almAlert true ("COURSE " ++ Js.toString courseName ++ " IS NOT AVAILABLE FOR YOU!")
             AlertType.error true)
      (fun error =>
         almAlert true "FAILED TO VERIFY COURSE AVAILABILITY" AlertType.error true ;;
         console_error "Error checking course availability:" error)
      (setApiCallInProgress false).

(** The callback of [learningObjects.map] in [courseGrid]. *)
Definition courseGrid_item (apiCallInProgress : bool)
    (course : Models.PrimeLearningObject) (index : nat) : option Card :=
  match Models.localizedMetadata course with
  | Some (metadata :: _) =>
      let instanceId :=
        match Models.instances course with
        | Some (instance :: _) => Models.instance_id instance
        | _ => ""
        end in
      let courseUrl :=
        "http://localhost:4505/content/learning/language-masters/en/overview.html/trainingId/"
        ++ Models.id course ++ "/trainingInstanceId/" ++ instanceId ++ "/home.html" in
      let fallbackImage :=
        "https://img.freepik.com/free-vector/online-certification-illustration_23-2148575636.jpg?semt=ais_hybrid&w=740" in
      let checkCourseAvailability := courseGrid_checkCourseAvailability apiCallInProgress in
      Some {|
        key := index;
        href := courseUrl;
        onClick := checkCourseAvailability (Models.id course);
        img_src := Js.orElse (Models.imageUrl course) fallbackImage;
        img_alt := Js.orElse (Models.name metadata) "Course image";
        img_onError_src := fallbackImage;
        title := Js.orElse (Models.name metadata) "Untitled Course";
        descriptionText :=
          if Js.truthyStr (Models.description metadata) then
            let description := match Models.description metadata with Some d => d | None => "" end in
            if 100 <? String.length description
            then JsString.substring description 0 100 ++ "..."
            else description
          else "No description available"
      |}
  | _ => None
  end.

(** The value [useMemo] computes for [courseGrid]. *)
Definition courseGrid_compute (apiCallInProgress : bool)
    (learningObjects : list Models.PrimeLearningObject) : list (option Card) :=
  js_map (courseGrid_item apiCallInProgress) learningObjects.

(** *** The filter (lines 187-199) *)

(** [a || b] on [boolean | undefined], and the truth test [filter] applies. *)
Definition orUndefined (a b : option bool) : option bool :=
  match a with
  | Some true => a
  | _ => b
  end.

Definition truthyBool (a : option bool) : bool :=
  match a with
  | Some b => b
  | None => false
  end.

Definition filteredCourses (learningObjects : list Models.PrimeLearningObject)
    (searchTerm : string) : list Models.PrimeLearningObject :=
  if JsString.isEmpty (JsString.trim searchTerm) then learningObjects
  else
    filter
      (fun course =>
         match Models.localizedMetadata course with
         | Some (metadata :: _) =>
             truthyBool
               (orUndefined
                  (option_map
                     (fun name => JsString.includes (JsString.toLowerCase name)
                                    (JsString.toLowerCase searchTerm))
                     (Models.name metadata))
                  (option_map
                     (fun description => JsString.includes (JsString.toLowerCase description)
                                           (JsString.toLowerCase searchTerm))
                     (Models.description metadata)))
         | _ => false
         end)
      learningObjects.

(** *** The inline grid of the returned JSX (lines 235-322) *)

(** [checkCourseAvailability] of the inline [filteredCourses.map] callback. *)
Definition inline_checkCourseAvailability (apiCallInProgress : bool) (courseId : string)
    : M unit :=
  if apiCallInProgress then js_return
  else
    preventDefault ;;
    setApiCallInProgress true ;;
    try_catch_finally
      (almCpToken <- getCookie "alm_cp_token" ;;
       if negb (Js.truthyStr almCpToken) then
         almAlert true "AUTHENTICATION TOKEN NOT FOUND" AlertType.error true ;;
         setApiCallInProgress false ;;
         js_return
       else
         let apiUrl := "https://learningmanager.adobe.com/primeapi/v2/learningObjects/"
                       ++ Js.encodeURIComponent courseId in
         response <- await (AxiosGet apiUrl
                              [("Accept", "application/vnd.api+json");
                               ("Authorization",
                                "oauth " ++ match almCpToken with Some t => t | None => "null" end)]) ;;
         data <- lift (Js.getProp response "data") ;;
         data <- lift (Js.getProp data "data") ;;
         attributes <- lift (Js.getProp data "attributes") ;;
         localizedMetadata <- lift (Js.getProp attributes "localizedMetadata") ;;
         metadata <- lift (Js.getIndex localizedMetadata 0) ;;
         courseName <- lift (Js.getProp metadata "name") ;;
         status <- lift (Js.getProp response "status") ;;
         available <-
           (if Js.strictEqualsNumber status "200" then
              data <- lift (Js.getProp response "data") ;;
              data <- lift (Js.getProp data "data") ;;
              relationships <- lift (Js.getProp data "relationships") ;;
              enrollment <- lift (Js.getProp relationships "enrollment") ;;
              ret (Js.truthy enrollment)
            else ret false) ;;
         if available then
           almAlert true ("COURSE " ++ Js.toString courseName ++ " IS AVAILABLE FOR YOU!")
             AlertType.success true
         else
           almAlert true ("COURSE " ++ Js.toString courseName ++ " IS NOT AVAILABLE FOR YOU!")
             AlertType.error true)
      (fun error =>
         almAlert true "FAILED TO VERIFY COURSE AVAILABILITY" AlertType.error true ;;
         console_error "Error checking course availability:" error)
      (setApiCallInProgress false).

(** The callback of [filteredCourses.map] in the returned JSX. *)
Definition inline_item (apiCallInProgress : bool)
    (course : Models.PrimeLearningObject) (index : nat) : option Card :=
  match Models.localizedMetadata course with
  | Some (metadata :: _) =>
      let instanceId :=
        match Models.instances course with
        | Some (instance :: _) => Models.instance_id instance
        | _ => ""
        end in
      let courseUrl :=
        "http://localhost:4505/content/learning/language-masters/en/overview.html/trainingId/"
        ++ Models.id course ++ "/trainingInstanceId/" ++ instanceId ++ "/home.html" in
      let fallbackImage :=
        "https://img.freepik.com/free-vector/online-certification-illustration_23-2148575636.jpg?semt=ais_hybrid&w=740" in
      let checkCourseAvailability := inline_checkCourseAvailability apiCallInProgress in
      Some {|
        key := index;
        href := courseUrl;
        onClick := checkCourseAvailability (Models.id course);
        img_src := Js.orElse (Models.imageUrl course) fallbackImage;
        img_alt := Js.orElse (Models.name metadata) "Course image";
        img_onError_src := fallbackImage;
        title := Js.orElse (Models.name metadata) "Untitled Course";
        descriptionText :=
          if Js.truthyStr (Models.description metadata) then
            let description := match Models.description metadata with Some d => d | None => "" end in
            if 100 <? String.length description
            then JsString.substring description 0 100 ++ "..."
            else description
          else "No description available"
      |}
  | _ => None
  end.

(** *** What the component returns *)

(** A JSX child: a piece of text or a number. *)
Inductive Child : Type :=
| Text (s : string)
| Num (n : nat).

(** The search box: the value of the input, and the children of the
    results-count [span] when it is rendered. *)
Record SearchContainer : Type := {
  input_value : string;
  resultsCount : option (list Child)
}.

Inductive Listing : Type :=
| CourseGrid (tiles : list (option Card))
| NoCoursesMessage (text : string).

(** The part of the returned tree under the heading: the loading message,
    the error panel with the error text, or the search box (when rendered)
    over the listing. *)
Inductive View : Type :=
| LoadingMessage (text : string)
| ErrorMessage (text : string)
| Loaded (search : option SearchContainer) (listing : Listing).

(** The cell of [useMemo(.., [learningObjects])]: the dependency it was
    computed for and the value. *)
Record MemoCell : Type := {
  memo_dep : nat;
  memo_value : list (option Card)
}.

Definition useMemo_courseGrid (previous : option MemoCell) (s : State) : MemoCell :=
  let fresh := {| memo_dep := learningObjects_ref s;
                  memo_value := courseGrid_compute (apiCallInProgress s) (learningObjects s) |} in
  match previous with
  | Some cell => if memo_dep cell =? learningObjects_ref s then cell else fresh
  | None => fresh
  end.

(** One call of the function component on the state [s] with the memo cell
    of the previous render: the new memo cell and the returned tree. *)
Definition SakshiEnrolledLearningObjects (previous : option MemoCell) (s : State)
    : MemoCell * View :=
  let courseGrid := useMemo_courseGrid previous s in
  let filteredCourses := filteredCourses (learningObjects s) (searchTerm s) in
  (courseGrid,
   if isLoading s then LoadingMessage "Loading your learning objects..."
   else if Js.truthyStr (error s) then
     ErrorMessage (match error s with Some msg => msg | None => "" end)
   else
     Loaded
       (if 0 <? List.length (learningObjects s) then
          Some {| input_value := searchTerm s;
                  resultsCount :=
                    if negb (JsString.isEmpty (searchTerm s)) then
                      Some [Text "Found "; Num (List.length filteredCourses); Text " ";
                            Text (if List.length filteredCourses =? 1 then "course" else "courses")]
                    else None |}
        else None)
       (if 0 <? List.length (learningObjects s) then
          if 0 <? List.length filteredCourses then
            CourseGrid (js_map (inline_item (apiCallInProgress s)) filteredCourses)
          else NoCoursesMessage "No courses match your search criteria."
        else NoCoursesMessage "No enrolled courses found.")).

(* ===================================================================== *)
(** ** The event loop *)
(* ===================================================================== *)

(** A suspended [async] call: the request it awaits and the rest of it. *)
Definition Suspended : Type := (Request * (Settlement -> Env -> Res unit))%type.

(** The mounted component between two events. *)
Record Runtime : Type := mkRuntime {
  env : Env;
  memo : option MemoCell;
  view : View;
  pending : list Suspended
}.

(** What becomes of a top-level [async] call that ran until it finished or
    stopped at an [await]: its promise is fulfilled, rejected with nobody
    listening, or the call is parked. *)
Definition absorb (r : Res unit) (parked : list Suspended) : Env * list Suspended :=
  match r with
  | Normal _ e => (e, parked)
  | Returned e => (e, parked)
  | Thrown x e =>
      (mkEnv (comp e) (document_cookie e) (effects e ++ [UnhandledRejection x]) (defaultPrevented e),
       parked)
  | Awaiting q e k => (e, (parked ++ [(q, k)])%list)
  end.

(** React renders again with the state the handlers left. *)
Definition render (rt : Runtime) : Runtime :=
  let (cell, v) := SakshiEnrolledLearningObjects (memo rt) (comp (env rt)) in
  mkRuntime (env rt) (Some cell) v (pending rt).

Definition initialState : State :=
  mkState None [] 0 true None false "".

(** Mounting: the first render, then the effect [fetchData()] up to its
    first [await], then the next render. *)
Definition mount (host : Host) (cookie : string) : Runtime :=
  let (cell, v) := SakshiEnrolledLearningObjects None initialState in
  let (e, parked) := absorb (fetchData host (mkEnv initialState cookie [] false)) [] in
  render (mkRuntime e (Some cell) v parked).

(** The browser dispatching a click on the link of a tile: the handler runs
    on a fresh event up to its first [await]; then the link's default
    action, navigation to [href], takes place unless the event's default
    was prevented. *)
Definition dispatchClick (card : Card) (rt : Runtime) : Runtime :=
  let e0 := mkEnv (comp (env rt)) (document_cookie (env rt)) (effects (env rt)) false in
  let (e1, parked) := absorb (onClick card e0) (pending rt) in
  let e2 := if defaultPrevented e1 then e1
            else mkEnv (comp e1) (document_cookie e1) (effects e1 ++ [Navigation (href card)])
                   (defaultPrevented e1) in
  mkRuntime e2 (memo rt) (view rt) parked.

Inductive Event : Type :=
| Click (i : nat)                     (* the user clicks the i-th tile of the grid on screen *)
| TypeSearch (text : string)          (* the user edits the search input *)
| Settle (j : nat) (s : Settlement)   (* the promise of the j-th parked call settles *)
| SetCookie (cookie : string).        (* something outside changes document.cookie *)

Fixpoint remove_nth {A : Type} (j : nat) (l : list A) : list A :=
  match j, l with
  | _, [] => []
  | 0, _ :: r => r
  | S j', x :: r => x :: remove_nth j' r
  end.

(** One turn of the event loop; an event that cannot occur on the current
    screen leaves the runtime as it is. *)
Definition step (rt : Runtime) (ev : Event) : Runtime :=
  match ev with
  | Click i =>
      match view rt with
      | Loaded _ (CourseGrid tiles) =>
          match nth_error tiles i with
          | Some (Some card) => render (dispatchClick card rt)
          | _ => rt
          end
      | _ => rt
      end
  | TypeSearch text =>
      match view rt with
      | Loaded (Some _) _ =>
          let (e, parked) := absorb (setSearchTerm text (env rt)) (pending rt) in
          render (mkRuntime e (memo rt) (view rt) parked)
      | _ => rt
      end
  | Settle j s =>
      match nth_error (pending rt) j with
      | Some (_, k) =>
          let (e, parked) := absorb (k s (env rt)) (remove_nth j (pending rt)) in
          render (mkRuntime e (memo rt) (view rt) parked)
      | None => rt
      end
  | SetCookie cookie =>
      mkRuntime (mkEnv (comp (env rt)) cookie (effects (env rt)) (defaultPrevented (env rt)))
        (memo rt) (view rt) (pending rt)
  end.

Definition run (rt : Runtime) (evs : list Event) : Runtime :=
  fold_left step evs rt.

Inductive reachable (host : Host) : Runtime -> Prop :=
| reachable_mount (cookie : string) : reachable host (mount host cookie)
| reachable_step (rt : Runtime) (ev : Event) :
    reachable host rt -> reachable host (step rt ev).

(** *** axios *)

(** What the network gives back for a GET. *)
Inductive HttpOutcome : Type :=
| NetworkError
| HttpResponse (status : nat) (data : JsVal).

(** The promise of [axios.get]: with axios' default [validateStatus] it is
    fulfilled with the response object for a status from 200 to 299 and
    rejected otherwise; only the [status] and [data] fields of the response
    object are kept. *)
Definition axios_settle (o : HttpOutcome) : Settlement :=
  match o with
  | NetworkError => Rejected (VError "AxiosError" "Network Error")
  | HttpResponse status data =>
      if (200 <=? status) && (status <? 300)
      then Fulfilled (VObj [("data", data); ("status", VNum (JsString.ofNat status))])
      else Rejected (VError "AxiosError"
                       ("Request failed with status code " ++ JsString.ofNat status))
  end.

(** The projections the statements use. *)
Definition alerts (e : Env) : list Effect :=
  filter (fun x => match x with Alert _ _ _ _ => true | _ => false end) (effects e).

Definition requests (e : Env) : list Request :=
  flat_map (fun x => match x with Issued q => [q] | _ => [] end) (effects e).

Definition navigations (e : Env) : list string :=
  flat_map (fun x => match x with Navigation h => [h] | _ => [] end) (effects e).

Definition isAxiosGet (q : Request) : bool :=
  match q with AxiosGet _ _ => true | RestAdapterGet _ _ => false end.

(** The availability checks in flight. *)
Definition checksInFlight (rt : Runtime) : list Suspended :=
  filter (fun p => isAxiosGet (fst p)) (pending rt).

(* ===================================================================== *)
(** ** The vocabulary of the statements *)
(* ===================================================================== *)

(** The state with the in-flight flag set to [b]. *)
Definition withFlag (b : bool) (s : State) : State :=
  mkState (userId s) (learningObjects s) (learningObjects_ref s) (isLoading s)
          (error s) b (searchTerm s).

(** The environment with one more effect. *)
Definition withEffect (x : Effect) (e : Env) : Env :=
  mkEnv (comp e) (document_cookie e) (effects e ++ [x]) (defaultPrevented e).


(** No cookie named [name]: no [;]-separated piece of [document.cookie]
    starts, once trimmed, with [name=]. *)
Definition CookieAbsent (name cookie : string) : Prop :=
  Forall (fun piece => JsString.startsWith (JsString.trim piece) (name ++ "=") = false)
         (JsString.split ";" cookie).

(** Empty or whitespace-only. *)
Definition Blank (s : string) : Prop :=
  Forall (fun c => JsString.isWhiteSpace c = true) (list_ascii_of_string s).

Definition firstLocalizedMetadata (course : Models.PrimeLearningObject)
    : option Models.PrimeLocalizationMetadata :=
  match Models.localizedMetadata course with
  | Some (metadata :: _) => Some metadata
  | _ => None
  end.



(** The first [n] characters. *)
Fixpoint firstChars (n : nat) (s : string) : string :=
  match n, s with
  | S n', String c r => String c (firstChars n' r)
  | _, _ => EmptyString
  end.

(** The fields of the response body the availability check reads:
    [data.attributes.localizedMetadata[0].name] and
    [data.relationships.enrollment]. *)
Definition andThen {A B : Type} (r : JsResult A) (f : A -> JsResult B) : JsResult B :=
  match r with
  | Ok a => f a
  | Err x => Err x
  end.

Definition courseNameOf (body : JsVal) : JsResult JsVal :=
  andThen (Js.getProp body "data") (fun data =>
  andThen (Js.getProp data "attributes") (fun attributes =>
  andThen (Js.getProp attributes "localizedMetadata") (fun localizedMetadata =>
  andThen (Js.getIndex localizedMetadata 0) (fun metadata =>
  Js.getProp metadata "name")))).

Definition enrollmentOf (body : JsVal) : JsResult JsVal :=
  andThen (Js.getProp body "data") (fun data =>
  andThen (Js.getProp data "relationships") (fun relationships =>
  Js.getProp relationships "enrollment")).

(** The [id] the session resolver looks for: [parsedJson?.data?.id]. *)
Definition sessionIdOf (parsedJson : JsVal) : JsResult JsVal :=
  andThen (Js.optProp parsedJson "data") (fun data => Js.optProp data "id").

(** An [async] call has run to its end, without throwing, and left the
    in-flight flag down. *)
Definition EndsWithFlagDown (r : Res unit) : Prop :=
  match r with
  | Normal _ e => apiCallInProgress (comp e) = false
  | Returned e => apiCallInProgress (comp e) = false
  | Thrown _ _ => False
  | Awaiting _ _ _ => False
  end.

(** Two tiles are the same card: same link target, same image with the same
    fallback, same title and description, and the same behaviour on a
    click. *)
Definition SameCard (a b : Card) : Prop :=
  href a = href b
  /\ img_src a = img_src b
  /\ img_alt a = img_alt b
  /\ img_onError_src a = img_onError_src b
  /\ title a = title b
  /\ descriptionText a = descriptionText b
  /\ (forall e, onClick a e = onClick b e).

(** The tiles of the grid on screen. *)
Definition tilesOnScreen (rt : Runtime) : list (option Card) :=
  match view rt with
  | Loaded _ (CourseGrid tiles) => tiles
  | _ => []
  end.

(** The memoized grid and the grid on screen hold the same card for every
    learning object that has a tile in both. A tile of the memoized grid
    stands at the object's position in the fetched list, a tile on screen at
    its position in the filtered list. *)
Definition GridsAgree (rt : Runtime) : Prop :=
  forall cell i j course a b,
    memo rt = Some cell ->
    nth_error (learningObjects (comp (env rt))) i = Some course ->
    nth_error (filteredCourses (learningObjects (comp (env rt)))
                 (searchTerm (comp (env rt)))) j = Some course ->
    nth_error (memo_value cell) i = Some (Some a) ->
    nth_error (tilesOnScreen rt) j = Some (Some b) ->
    SameCard a b.

(** The request of an availability check, and how a check ends: the flag
    down and something shown. *)
Definition checkRequest (courseId token : string) : Request :=
  AxiosGet ("https://learningmanager.adobe.com/primeapi/v2/learningObjects/"
            ++ Js.encodeURIComponent courseId)
    [("Accept", "application/vnd.api+json"); ("Authorization", "oauth " ++ token)].

Definition finish (later : Env) (shown : list Effect) : Res unit :=
  Normal tt (mkEnv (withFlag false (comp later)) (document_cookie later)
               (effects later ++ shown) (defaultPrevented later)).

Definition genericFailure (x : JsVal) : list Effect :=
  [Alert true "FAILED TO VERIFY COURSE AVAILABILITY" AlertType.error true;
   ConsoleError "Error checking course availability:" x].

(** Only alerts and console messages. *)
Definition Quiet (shown : list Effect) : Prop :=
  Forall (fun x => match x with
                   | Alert _ _ _ _ | ConsoleError _ _ => True
                   | _ => False
                   end) shown.

(** A call of the handler resets the flag on every path: it has ended with
    the flag down, or it has raised the flag and waits, and then ends with
    the flag down however its request settles and whatever the environment
    is by then. *)
Definition FlagResetOnEveryPath (call : Res unit) : Prop :=
  match call with
  | Awaiting _ suspended k =>
      apiCallInProgress (comp suspended) = true
      /\ forall settlement later, EndsWithFlagDown (k settlement later)
  | finished => EndsWithFlagDown finished
  end.

(** The state after a session that could not be resolved. *)
Definition failedState (message : string) : State :=
  mkState None [] 0 false (Some message) false "".

(** The catalog request of [getEnrolledLearningObjects]. *)
Definition catalogRequest (host : Host) (id : JsVal) : Request :=
  RestAdapterGet (primeApiURL host ++ "/learningObjects?")
    [("userId", id);
     ("filter.loTypes", VStr "course");
     ("page[limit]", VStr "100");
     ("sort", VStr "name");
     ("filter.ignoreEnhancedLP", VStr "true")].

(** What the rest of [fetchData] does once the catalog request has settled:
    it ends normally, loading is over, the fetched list is replaced, and the
    in-flight flag and the search term are as they were. *)
Definition EndsLoading (k : Settlement -> Env -> Res unit) : Prop :=
  forall settlement later,
    exists after shown,
      k settlement later = Normal tt after
      /\ isLoading (comp after) = false
      /\ apiCallInProgress (comp after) = apiCallInProgress (comp later)
      /\ learningObjects_ref (comp after) = S (learningObjects_ref (comp later))
      /\ searchTerm (comp after) = searchTerm (comp later)
      /\ effects after = (effects later ++ shown)%list
      /\ Quiet shown.

(** What the rest of an availability check does once its request has
    settled. *)
Definition EndsCheck (k : Settlement -> Env -> Res unit) : Prop :=
  forall settlement later,
    exists shown, k settlement later = finish later shown /\ Quiet shown.

(** The tree the component returns for a state. *)
Definition viewOf (s : State) : View :=
  snd (SakshiEnrolledLearningObjects None s).

(** The session could not be resolved: the error panel shows [message],
    loading is over, nothing was requested, nothing is parked and no promise
    was rejected unhandled. *)
Definition SessionFailed (rt : Runtime) (message : string) : Prop :=
  error (comp (env rt)) = Some message
  /\ isLoading (comp (env rt)) = false
  /\ view rt = ErrorMessage message
  /\ pending rt = []
  /\ requests (env rt) = []
  /\ (forall x, ~ In (UnhandledRejection x) (effects (env rt))).

(** The three phases of the mounted component: the catalog request is out
    and loading; nothing is out; one availability check is out and the flag
    is up. *)
Definition Phase (s : State) (parked : list Suspended) : Prop :=
  (isLoading s = true /\ apiCallInProgress s = false
   /\ exists q k, parked = [(q, k)] /\ isAxiosGet q = false /\ EndsLoading k)
  \/ (isLoading s = false /\ apiCallInProgress s = false /\ parked = [])
  \/ (isLoading s = false /\ apiCallInProgress s = true
      /\ exists q k, parked = [(q, k)] /\ isAxiosGet q = true /\ EndsCheck k).

(** What holds of the mounted component between two events: the screen shows
    the current state, the memo cell holds the grid computed for the current
    list at a moment when the flag was down, and the component is in one of
    the three phases. *)
Definition Invariant (rt : Runtime) : Prop :=
  view rt = viewOf (comp (env rt))
  /\ (exists cell,
        memo rt = Some cell
        /\ memo_dep cell = learningObjects_ref (comp (env rt))
        /\ memo_value cell = courseGrid_compute false (learningObjects (comp (env rt))))
  /\ Phase (comp (env rt)) (pending rt).

(** *** A session for the examples *)

Module Demo.

(** The text [{"data":{"id":"42"}}]. *)
Definition user_json : string :=
  "{" ++ dquote ++ "data" ++ dquote ++ ":{" ++ dquote ++ "id" ++ dquote ++ ":"
  ++ dquote ++ "42" ++ dquote ++ "}}".

Definition intro : Models.PrimeLearningObject := {|
  Models.id := "course:1";
  Models.localizedMetadata :=
    Some [{| Models.name := Some "Intro"; Models.description := Some "" |}];
  Models.imageUrl := None;
  Models.instances := Some [{| Models.instance_id := "course:1_1" |}]
|}.

Definition advanced : Models.PrimeLearningObject := {|
  Models.id := "course:2";
  Models.localizedMetadata :=
    Some [{| Models.name := Some "Advanced"; Models.description := Some "Deep dive" |}];
  Models.imageUrl := Some "http://cdn.example/advanced.png";
  Models.instances := None
|}.

(** A host whose [JSON.parse] knows the text above and the text [{}], and
    whose [JsonApiParse] reads the body [catalog] as the two courses. *)
Definition host : Host := {|
  JSON_parse := fun s =>
    if (s =? user_json)%string
    then Ok (VObj [("data", VObj [("id", VStr "42")])])
    else if (s =? "{}")%string then Ok (VObj [])
    else Err (VError "SyntaxError" "Unexpected token in JSON");
  JsonApiParse := fun v =>
    match v with
    | VStr "catalog" => Ok {| Models.learningObjectList := Some [intro; advanced] |}
    | _ => Err (VError "SyntaxError" "Unexpected end of JSON input")
    end;
  primeApiURL := "https://learningmanager.adobe.com/primeapi/v2"
|}.

Definition cookie : string :=
  "theme=dark; user=" ++ user_json ++ "; alm_cp_token=tok123".

(** Mounted and the catalog loaded. *)
Definition loaded : Runtime :=
  step (mount host cookie) (Settle 0 (Fulfilled (VStr "catalog"))).

(** The first tile clicked: its availability check is in flight. *)
Definition checking : Runtime := step loaded (Click 0).

(** A response body with a course name and an enrollment relationship. *)
Definition body_enrolled : JsVal :=
  VObj [("data",
         VObj [("attributes",
                VObj [("localizedMetadata", VArr [VObj [("name", VStr "Intro")]])]);
               ("relationships", VObj [("enrollment", VObj [("data", VObj [])])])])].


End Demo.

(** *** Further vocabulary *)

(** The character [c] does not occur in [s]. *)
Definition Without (c : ascii) (s : string) : Prop :=
  Forall (fun x => x <> c) (list_ascii_of_string s).

(** A piece of [document.cookie] does not answer for [name]. *)
Definition NotNamed (name piece : string) : Prop :=
  JsString.startsWith (JsString.trim piece) (name ++ "=") = false.

Definition isAlert (x : Effect) : bool :=
  match x with Alert _ _ _ _ => true | _ => false end.

(** An effect other than an unhandled rejection and a catalog request. *)
Definition Harmless (x : Effect) : Prop :=
  match x with
  | UnhandledRejection _ => False
  | Issued (RestAdapterGet _ _) => False
  | _ => True
  end.

(** The catalog requests among the requests issued so far. *)
Definition catalogRequests (e : Env) : list Request :=
  filter (fun q => negb (isAxiosGet q)) (requests e).

(** The state with the search term set to [t]. *)
Definition withSearchTerm (t : string) (s : State) : State :=
  mkState (userId s) (learningObjects s) (learningObjects_ref s) (isLoading s)
          (error s) (apiCallInProgress s) t.

(** The state in which the catalog has come back as [l]. *)
Definition catalogState (id : JsVal) (l : list Models.PrimeLearningObject) : State :=
  mkState (Some id) l 1 false None false "".


(** Two tiles show the same: same link target, same image with the same
    alternative text and fallback, same title and description. *)
Definition SameFace (a b : Card) : Prop :=
  href a = href b
  /\ img_src a = img_src b
  /\ img_alt a = img_alt b
  /\ img_onError_src a = img_onError_src b
  /\ title a = title b
  /\ descriptionText a = descriptionText b.





(* ===================================================================== *)
(** * Properties *)
(* ===================================================================== *)

#[local] Arguments Js.truthyStr : simpl never.
#[local] Arguments Js.truthy : simpl never.
#[local] Arguments Js.toString : simpl never.
#[local] Arguments Js.encodeURIComponent : simpl never.
#[local] Arguments getCookieByName : simpl never.
#[local] Arguments String.append : simpl never.

(** ** Strings *)

Section StringFacts.

Lemma prefix_iff (p s : string) :
  String.prefix p s = true <-> exists rest, s = (p ++ rest)%string.
Proof.
  revert s. induction p as [|x p IH]; intros s.
  - split; [intros _; now exists s | intros _; now destruct s].
  - destruct s as [|y s]; cbn [String.prefix].
    + split; [discriminate | intros [rest H]; discriminate H].
    + destruct (Ascii.ascii_dec x y) as [->|Hxy].
      * rewrite IH. split; intros [rest H]; exists rest.
        -- now rewrite H.
        -- now injection H.
      * split; [discriminate|]. intros [rest H]. injection H as H1 _. congruence.
Qed.


Lemma trimStart_blank (s : string) : Blank s -> JsString.trimStart s = EmptyString.
Proof.
  unfold Blank. induction s as [|c s IH]; cbn; [reflexivity|].
  intros H. inversion H as [|? ? Hc Hs]; subst. rewrite Hc. now apply IH.
Qed.

Lemma trimStart_not_blank (s : string) :
  ~ Blank s ->
  exists c r, JsString.trimStart s = String c r /\ JsString.isWhiteSpace c = false.
Proof.
  unfold Blank. induction s as [|c s IH]; cbn [JsString.trimStart list_ascii_of_string]; intros H.
  - destruct H. constructor.
  - destruct (JsString.isWhiteSpace c) eqn:Hc.
    + apply IH. intros Hs. apply H. now constructor.
    + now exists c, s.
Qed.

Lemma trimEnd_keeps_head (c : ascii) (r : string) :
  JsString.isWhiteSpace c = false -> JsString.trimEnd (String c r) <> EmptyString.
Proof.
  intros Hc. cbn [JsString.trimEnd]. rewrite Hc.
  destruct (JsString.trimEnd r); discriminate.
Qed.

Lemma trim_blank (s : string) :
  JsString.isEmpty (JsString.trim s) = true <-> Blank s.
Proof.
  unfold JsString.trim. split.
  - intros H. destruct (Forall_dec (fun c => JsString.isWhiteSpace c = true)
                          (fun c => bool_dec (JsString.isWhiteSpace c) true)
                          (list_ascii_of_string s)) as [Hb|Hn]; [exact Hb|].
    exfalso. destruct (trimStart_not_blank s Hn) as (c & r & E & Hc).
    rewrite E in H. pose proof (trimEnd_keeps_head c r Hc) as Hne.
    destruct (JsString.trimEnd (String c r)); [now apply Hne | discriminate H].
  - intros H. now rewrite (trimStart_blank s H).
Qed.

Lemma Blank_dec (s : string) : {Blank s} + {~ Blank s}.
Proof.
  apply Forall_dec. intros c. apply bool_dec.
Qed.

Lemma substring_firstChars (n : nat) (s : string) :
  String.substring 0 n s = firstChars n s.
Proof.
  revert s. induction n as [|n IH]; intros [|c s]; cbn; try reflexivity.
  now rewrite IH.
Qed.

Lemma js_substring_firstChars (n : nat) (s : string) :
  n <= String.length s -> JsString.substring s 0 n = firstChars n s.
Proof.
  intros H. unfold JsString.substring.
  rewrite Nat.min_0_l, Nat.max_0_l. cbn [Nat.min].
  rewrite (Nat.min_l n _ H), Nat.sub_0_r. apply substring_firstChars.
Qed.

Lemma firstChars_length (n : nat) (s : string) :
  n <= String.length s -> String.length (firstChars n s) = n.
Proof.
  revert s. induction n as [|n IH]; intros [|c s] H; cbn in *; try reflexivity; try lia.
  rewrite IH; [reflexivity | lia].
Qed.

Lemma firstChars_prefix (n : nat) (s : string) :
  exists rest, s = (firstChars n s ++ rest)%string.
Proof.
  revert s. induction n as [|n IH]; intros [|c s]; cbn [firstChars].
  - now exists EmptyString.
  - now exists (String c s).
  - now exists EmptyString.
  - destruct (IH s) as [rest H]. exists rest.
    change (String c s = String c (firstChars n s ++ rest)). now rewrite <- H.
Qed.

End StringFacts.

(** ** Cookies *)

Lemma getCookieByName_loop_None (name : string) (pieces : list string) :
  getCookieByName_loop name pieces = None
  <-> Forall (fun piece => JsString.startsWith (JsString.trim piece) (name ++ "=") = false) pieces.
Proof.
  induction pieces as [|p pieces IH]; cbn [getCookieByName_loop].
  - split; [constructor | reflexivity].
  - destruct (JsString.startsWith (JsString.trim p) (name ++ "=")) eqn:E.
    + split; [discriminate|]. intros H. inversion H; congruence.
    + rewrite IH. split; intros H; [now constructor | now inversion H].
Qed.

Lemma getCookieByName_absent (cookie name : string) :
  getCookieByName cookie name = None <-> CookieAbsent name cookie.
Proof. apply getCookieByName_loop_None. Qed.

(** ** The filter *)





(** ** The rendered tree *)

(** C8, the claim as stated, fails on a course whose description is the
    empty string: it is no longer than 100 characters, and the tile does not
    show it unchanged. *)
Lemma description_unchanged_counterexample :
  exists card metadata description,
    inline_item false Demo.intro 0 = Some card
    /\ firstLocalizedMetadata Demo.intro = Some metadata
    /\ Models.description metadata = Some description
    /\ String.length description <= 100
    /\ descriptionText card <> description.
Proof.
  eexists. exists {| Models.name := Some "Intro"; Models.description := Some "" |}, "".
  split; [reflexivity|]. split; [reflexivity|]. split; [reflexivity|].
  split; [cbn; lia | discriminate].
Qed.

(** C8, amended. A tile shows the description of the first metadata entry
    unchanged when it is non-empty and at most 100 characters long, its first
    100 characters followed by three dots when it is longer, and the text
    "No description available" when it is absent or empty. *)
Theorem card_description (apiCallInProgress : bool) (course : Models.PrimeLearningObject)
    (index : nat) (card : Card) (metadata : Models.PrimeLocalizationMetadata) :
  inline_item apiCallInProgress course index = Some card ->
  firstLocalizedMetadata course = Some metadata ->
  descriptionText card =
    match Models.description metadata with
    | None => "No description available"
    | Some description =>
        if JsString.isEmpty description then "No description available"
        else if String.length description <=? 100 then description
        else (firstChars 100 description ++ "...")%string
    end.
Proof.
  unfold inline_item, firstLocalizedMetadata.
  destruct (Models.localizedMetadata course) as [[|m rest]|]; try discriminate.
  intros Hcard Hm. injection Hm as <-. injection Hcard as <-.
  cbn [descriptionText]. unfold Js.truthyStr.
  destruct (Models.description m) as [d|]; [|reflexivity].
  destruct (JsString.isEmpty d); cbn [negb]; [reflexivity|].
  destruct (Nat.ltb_spec 100 (String.length d)) as [Hlong|Hshort];
    destruct (Nat.leb_spec (String.length d) 100) as [Hle|Hgt]; try lia.
  - rewrite js_substring_firstChars by lia. reflexivity.
  - reflexivity.
Qed.

Lemma card_description_witness :
  exists card,
    inline_item false Demo.advanced 1 = Some card
    /\ descriptionText card = "Deep dive".
Proof.
  eexists. split; [reflexivity|].
  apply (card_description false Demo.advanced 1 _
           {| Models.name := Some "Advanced"; Models.description := Some "Deep dive" |});
    reflexivity.
Defined.

Lemma view_ignores_memo (previous previous' : option MemoCell) (s : State) :
  snd (SakshiEnrolledLearningObjects previous s)
  = snd (SakshiEnrolledLearningObjects previous' s).
Proof. reflexivity. Qed.

(** C7. Once loading has ended without an error: an empty fetched list is
    rendered as "No enrolled courses found."; a non-empty fetched list whose
    filtered list is empty is rendered as "No courses match your search
    criteria."; and under a non-empty search term the results count reads
    "Found n course" when exactly one object is left and "Found n courses"
    otherwise. *)
Theorem loaded_view (previous : option MemoCell) (s : State) :
  isLoading s = false ->
  error s = None ->
  let filtered := filteredCourses (learningObjects s) (searchTerm s) in
  let v := snd (SakshiEnrolledLearningObjects previous s) in
  (learningObjects s = [] ->
   v = Loaded None (NoCoursesMessage "No enrolled courses found."))
  /\ (learningObjects s <> [] -> filtered = [] ->
      exists box,
        v = Loaded (Some box) (NoCoursesMessage "No courses match your search criteria."))
  /\ (learningObjects s <> [] -> searchTerm s <> EmptyString ->
      exists word listing,
        v = Loaded (Some {| input_value := searchTerm s;
                            resultsCount :=
                              Some [Text "Found "; Num (List.length filtered);
                                    Text " "; Text word] |}) listing
        /\ (word = "course" <-> List.length filtered = 1)
        /\ (word = "courses" <-> List.length filtered <> 1)).
Proof.
  intros Hload Herr filtered v. subst v. unfold SakshiEnrolledLearningObjects.
  cbn [snd]. rewrite Hload, Herr. cbn [Js.truthyStr]. unfold Js.truthyStr.
  fold filtered. repeat split.
  - intros ->. reflexivity.
  - intros Hne Hnone. rewrite Hnone.
    destruct (learningObjects s) as [|c l]; [contradiction|]. cbn. eexists. reflexivity.
  - intros Hne Hterm.
    destruct (learningObjects s) as [|c l]; [contradiction|].
    destruct (searchTerm s) as [|a t] eqn:Et; [contradiction|].
    cbn [List.length Nat.ltb Nat.leb JsString.isEmpty negb].
    destruct (Nat.eqb_spec (List.length filtered) 1) as [E|E].
    + exists "course". eexists. split; [reflexivity|]. split; [tauto|].
      split; [discriminate | contradiction].
    + exists "courses". eexists. split; [reflexivity|]. split; [|tauto].
      split; [discriminate | contradiction].
Qed.

Lemma loaded_view_witness :
  let s := mkState None [Demo.intro; Demo.advanced] 1 false None false "DEEP" in
  snd (SakshiEnrolledLearningObjects None (mkState None [] 1 false None false ""))
  = Loaded None (NoCoursesMessage "No enrolled courses found.")
  /\ exists word listing,
       snd (SakshiEnrolledLearningObjects None s)
       = Loaded (Some {| input_value := "DEEP";
                         resultsCount :=
                           Some [Text "Found ";
                                 Num (List.length (filteredCourses (learningObjects s) "DEEP"));
                                 Text " "; Text word] |}) listing
       /\ (word = "course" <-> List.length (filteredCourses (learningObjects s) "DEEP") = 1)
       /\ (word = "courses" <-> List.length (filteredCourses (learningObjects s) "DEEP") <> 1).
Proof.
  intros s. split.
  - apply (loaded_view None (mkState None [] 1 false None false "") eq_refl eq_refl).
    reflexivity.
  - apply (loaded_view None s eq_refl eq_refl); discriminate.
Defined.

(** ** The availability check *)

(** The two copies of the handler are the same function. *)
Lemma checkCourseAvailability_copies (apiCallInProgress : bool) (courseId : string) :
  courseGrid_checkCourseAvailability apiCallInProgress courseId
  = inline_checkCourseAvailability apiCallInProgress courseId.
Proof. reflexivity. Qed.

Lemma check_in_flight (courseId : string) (e : Env) :
  inline_checkCourseAvailability true courseId e = Returned e.
Proof. reflexivity. Qed.

Lemma check_without_token (courseId : string) (e : Env) :
  Js.truthyStr (getCookieByName (document_cookie e) "alm_cp_token") = false ->
  inline_checkCourseAvailability false courseId e
  = Returned (withEffect (Alert true "AUTHENTICATION TOKEN NOT FOUND" AlertType.error true)
                (mkEnv (withFlag false (comp e)) (document_cookie e) (effects e) true)).
Proof.
  intros H. unfold inline_checkCourseAvailability, getCookie.
  cbn. rewrite H. reflexivity.
Qed.

Lemma check_with_token (courseId token : string) (e : Env) :
  getCookieByName (document_cookie e) "alm_cp_token" = Some token ->
  token <> EmptyString ->
  exists k,
    inline_checkCourseAvailability false courseId e
    = Awaiting (checkRequest courseId token)
        (withEffect (Issued (checkRequest courseId token))
           (mkEnv (withFlag true (comp e)) (document_cookie e) (effects e) true)) k
    /\ (forall settlement later,
          exists shown, k settlement later = finish later shown /\ Quiet shown)
    /\ (forall x later, k (Rejected x) later = finish later (genericFailure x))
    /\ (forall status body later,
          k (Fulfilled (VObj [("data", body); ("status", VNum status)])) later
          = match courseNameOf body with
            | Err x => finish later (genericFailure x)
            | Ok name =>
                if (status =? "200")%string then
                  match enrollmentOf body with
                  | Err x => finish later (genericFailure x)
                  | Ok enrollment =>
                      if Js.truthy enrollment
                      then finish later
                             [Alert true ("COURSE " ++ Js.toString name ++ " IS AVAILABLE FOR YOU!")
                                AlertType.success true]
                      else finish later
                             [Alert true ("COURSE " ++ Js.toString name ++ " IS NOT AVAILABLE FOR YOU!")
                                AlertType.error true]
                  end
                else finish later
                       [Alert true ("COURSE " ++ Js.toString name ++ " IS NOT AVAILABLE FOR YOU!")
                          AlertType.error true]
            end).
Proof.
  intros Htok Hne.
  assert (Ht : Js.truthyStr (Some token) = true) by (now destruct token).
  unfold inline_checkCourseAvailability, getCookie.
  cbn. rewrite Htok, Ht. cbn.
  eexists. split; [reflexivity|]. split; [|split].
  - intros settlement later. unfold finish.
    assert (Hq : forall x, Quiet (genericFailure x)) by (repeat constructor).
    assert (Ha : forall m t, Quiet [Alert true m t true]) by (repeat constructor).
    destruct settlement as [response|x]; cbn;
      [|exists (genericFailure x); now rewrite <- app_assoc].
    destruct (Js.getProp response "data") as [data|x]; cbn;
      [|exists (genericFailure x); now rewrite <- app_assoc].
    destruct (Js.getProp data "data") as [data'|x]; cbn;
      [|exists (genericFailure x); now rewrite <- app_assoc].
    destruct (Js.getProp data' "attributes") as [attributes|x]; cbn;
      [|exists (genericFailure x); now rewrite <- app_assoc].
    destruct (Js.getProp attributes "localizedMetadata") as [localizedMetadata|x]; cbn;
      [|exists (genericFailure x); now rewrite <- app_assoc].
    destruct (Js.getIndex localizedMetadata 0) as [metadata|x]; cbn;
      [|exists (genericFailure x); now rewrite <- app_assoc].
    destruct (Js.getProp metadata "name") as [name|x]; cbn;
      [|exists (genericFailure x); now rewrite <- app_assoc].
    destruct (Js.getProp response "status") as [status|x]; cbn;
      [|exists (genericFailure x); now rewrite <- app_assoc].
    destruct (Js.strictEqualsNumber status "200"); cbn;
      [|eexists; split; [reflexivity | apply Ha]].
    destruct (Js.getProp data' "relationships") as [relationships|x]; cbn;
      [|exists (genericFailure x); now rewrite <- app_assoc].
    destruct (Js.getProp relationships "enrollment") as [enrollment|x]; cbn;
      [|exists (genericFailure x); now rewrite <- app_assoc].
    destruct (Js.truthy enrollment); eexists; (split; [reflexivity | apply Ha]).
  - intros x later. unfold finish, genericFailure.
    cbn. rewrite <- app_assoc. reflexivity.
  - intros status body later. unfold finish, genericFailure, courseNameOf, enrollmentOf, andThen.
    cbn.
    destruct (Js.getProp body "data") as [data|x]; cbn;
      [|now rewrite <- app_assoc].
    destruct (Js.getProp data "attributes") as [attributes|x]; cbn;
      [|now rewrite <- app_assoc].
    destruct (Js.getProp attributes "localizedMetadata") as [localizedMetadata|x]; cbn;
      [|now rewrite <- app_assoc].
    destruct (Js.getIndex localizedMetadata 0) as [metadata|x]; cbn;
      [|now rewrite <- app_assoc].
    destruct (Js.getProp metadata "name") as [name|x]; cbn;
      [|now rewrite <- app_assoc].
    destruct (status =? "200")%string; cbn; [|reflexivity].
    destruct (Js.getProp data "relationships") as [relationships|x]; cbn;
      [|now rewrite <- app_assoc].
    destruct (Js.getProp relationships "enrollment") as [enrollment|x]; cbn;
      [|now rewrite <- app_assoc].
    destruct (Js.truthy enrollment); reflexivity.
Qed.

Lemma requests_withEffect (x : Effect) (e : Env) :
  requests (withEffect x e) = (requests e ++ match x with Issued q => [q] | _ => [] end)%list.
Proof.
  unfold requests, withEffect. cbn [effects]. rewrite flat_map_app. cbn.
  now rewrite app_nil_r.
Qed.

Lemma alerts_withEffect (x : Effect) (e : Env) :
  alerts (withEffect x e)
  = (alerts e ++ match x with Alert _ _ _ _ => [x] | _ => [] end)%list.
Proof.
  unfold alerts, withEffect. cbn [effects]. rewrite filter_app. cbn.
  now destruct x.
Qed.

(** C4. A click that enters the handler while there is no [alm_cp_token]
    cookie shows the error alert "AUTHENTICATION TOKEN NOT FOUND" and
    returns; no request is issued. *)
Theorem missing_token_aborts (courseId : string) (e : Env) :
  CookieAbsent "alm_cp_token" (document_cookie e) ->
  exists after,
    inline_checkCourseAvailability false courseId e = Returned after
    /\ courseGrid_checkCourseAvailability false courseId e = Returned after
    /\ alerts after
       = (alerts e ++ [Alert true "AUTHENTICATION TOKEN NOT FOUND" AlertType.error true])%list
    /\ requests after = requests e
    /\ apiCallInProgress (comp after) = false.
Proof.
  intros H. apply getCookieByName_absent in H.
  eexists. split; [|split].
  - apply check_without_token. now rewrite H.
  - rewrite checkCourseAvailability_copies. apply check_without_token. now rewrite H.
  - rewrite alerts_withEffect, requests_withEffect. cbn [app].
    split; [reflexivity|]. split; [apply app_nil_r | reflexivity].
Qed.

Lemma missing_token_aborts_witness :
  exists after,
    inline_checkCourseAvailability false "course:1" (mkEnv initialState "theme=dark" [] false)
    = Returned after
    /\ courseGrid_checkCourseAvailability false "course:1" (mkEnv initialState "theme=dark" [] false)
       = Returned after
    /\ alerts after = [Alert true "AUTHENTICATION TOKEN NOT FOUND" AlertType.error true]
    /\ requests after = []
    /\ apiCallInProgress (comp after) = false.
Proof.
  apply (missing_token_aborts "course:1" (mkEnv initialState "theme=dark" [] false)).
  unfold CookieAbsent. cbn. repeat constructor.
Defined.





(** A call of either copy of the handler that enters with the flag down
    resets it on every path. *)
Lemma handler_resets_flag (courseId : string) (e : Env) :
  FlagResetOnEveryPath (inline_checkCourseAvailability false courseId e)
  /\ FlagResetOnEveryPath (courseGrid_checkCourseAvailability false courseId e).
Proof.
  change (courseGrid_checkCourseAvailability false courseId e)
    with (inline_checkCourseAvailability false courseId e).
  assert (H : FlagResetOnEveryPath (inline_checkCourseAvailability false courseId e));
    [|now split].
  destruct (getCookieByName (document_cookie e) "alm_cp_token") as [token|] eqn:Htok.
  - destruct token as [|c token].
    + rewrite check_without_token by now rewrite Htok. reflexivity.
    + destruct (check_with_token courseId (String c token) e Htok) as (k & -> & Hall & _);
        [discriminate|].
      cbn [FlagResetOnEveryPath]. split; [reflexivity|].
      intros settlement later. destruct (Hall settlement later) as (shown & -> & _).
      reflexivity.
  - rewrite check_without_token by now rewrite Htok. reflexivity.
Qed.

(** ** Mounting *)

Lemma optProp_total (v : JsVal) (p : string) : exists w, Js.optProp v p = Ok w.
Proof.
  destruct v; cbn; eauto;
    repeat match goal with |- context [if ?b then _ else _] => destruct b end; eauto.
Qed.

Lemma sessionIdOf_total (parsedJson : JsVal) : exists id, sessionIdOf parsedJson = Ok id.
Proof.
  unfold sessionIdOf. destruct (optProp_total parsedJson "data") as [d ->].
  apply optProp_total.
Qed.

Lemma optProp_truthy (v w : JsVal) (p : string) :
  Js.optProp v p = Ok w -> Js.truthy w = true -> Js.getProp v p = Ok w.
Proof.
  destruct v; cbn; intros H Ht; try exact H; injection H as <-; discriminate Ht.
Qed.

Lemma sessionIdOf_truthy (parsedJson id : JsVal) :
  sessionIdOf parsedJson = Ok id -> Js.truthy id = true ->
  exists data, Js.optProp parsedJson "data" = Ok data
               /\ Js.optProp data "id" = Ok id
               /\ Js.getProp parsedJson "data" = Ok data
               /\ Js.getProp data "id" = Ok id.
Proof.
  unfold sessionIdOf. intros H Ht.
  destruct (Js.optProp parsedJson "data") as [data|x] eqn:Ed; [|discriminate H].
  cbn [andThen] in H. exists data. repeat split; trivial.
  - destruct parsedJson; cbn in Ed |- *; try exact Ed;
      injection Ed as <-; cbn in H; injection H as <-; discriminate Ht.
  - now apply optProp_truthy.
Qed.

Lemma fetchData_no_cookie (host : Host) (cookie : string) :
  Js.truthyStr (getCookieByName cookie "user") = false ->
  fetchData host (mkEnv initialState cookie [] false)
  = Returned (mkEnv (failedState "User data not found") cookie [] false).
Proof.
  intros H. unfold fetchData, getCookie. cbn. rewrite H. reflexivity.
Qed.

Lemma fetchData_malformed (host : Host) (cookie value : string) (x : JsVal) :
  getCookieByName cookie "user" = Some value ->
  value <> EmptyString ->
  JSON_parse host value = Err x ->
  fetchData host (mkEnv initialState cookie [] false)
  = Normal tt (mkEnv (failedState ("Error processing data: " ++ Js.toString x)) cookie
                 [ConsoleError "Error in fetchData:" x] false).
Proof.
  intros Hc Hne Hp.
  assert (Ht : Js.truthyStr (Some value) = true) by (now destruct value).
  unfold fetchData, getCookie. cbn. rewrite Hc, Ht. cbn. rewrite Hp. reflexivity.
Qed.

Lemma fetchData_no_id (host : Host) (cookie value : string) (parsedJson id : JsVal) :
  getCookieByName cookie "user" = Some value ->
  value <> EmptyString ->
  JSON_parse host value = Ok parsedJson ->
  sessionIdOf parsedJson = Ok id ->
  Js.truthy id = false ->
  fetchData host (mkEnv initialState cookie [] false)
  = Normal tt (mkEnv (failedState "User ID not found in the cookie data") cookie [] false).
Proof.
  intros Hc Hne Hp Hid Hf.
  assert (Ht : Js.truthyStr (Some value) = true) by (now destruct value).
  unfold fetchData, getCookie. cbn. rewrite Hc, Ht. cbn. rewrite Hp. cbn.
  unfold sessionIdOf in Hid.
  destruct (Js.optProp parsedJson "data") as [data|y]; [|discriminate Hid].
  cbn in Hid |- *. rewrite Hid. cbn. rewrite Hf. reflexivity.
Qed.

Lemma fetchData_fetches (host : Host) (cookie value : string) (parsedJson id : JsVal) :
  getCookieByName cookie "user" = Some value ->
  value <> EmptyString ->
  JSON_parse host value = Ok parsedJson ->
  sessionIdOf parsedJson = Ok id ->
  Js.truthy id = true ->
  exists k,
    fetchData host (mkEnv initialState cookie [] false)
    = Awaiting (catalogRequest host id)
        (mkEnv (mkState (Some id) [] 0 true None false "") cookie
           [Issued (catalogRequest host id)] false) k
    /\ EndsLoading k.
Proof.
  intros Hc Hne Hp Hid Ht'.
  assert (Ht : Js.truthyStr (Some value) = true) by (now destruct value).
  destruct (sessionIdOf_truthy parsedJson id Hid Ht') as (data & H1 & H2 & H3 & H4).
  unfold fetchData, getCookie. cbn. rewrite Hc, Ht. cbn. rewrite Hp. cbn.
  rewrite H1. cbn. rewrite H2. cbn. rewrite Ht'. cbn. rewrite H3. cbn. rewrite H4. cbn.
  eexists. split; [reflexivity|].
  intros settlement later.
  destruct settlement as [response|x]; cbn.
  - destruct (JsonApiParse host response) as [[[l|]]|x]; cbn.
    + eexists. exists []. split; [reflexivity|]. cbn.
      repeat split; [symmetry; apply app_nil_r | constructor].
    + eexists. exists []. split; [reflexivity|]. cbn.
      repeat split; [symmetry; apply app_nil_r | constructor].
    + eexists. exists [ConsoleError "Error while loading learning objects:" x].
      split; [reflexivity|]. cbn. repeat split. repeat constructor.
  - eexists. exists [ConsoleError "Error while loading learning objects:" x].
    split; [reflexivity|]. cbn. repeat split. repeat constructor.
Qed.

Lemma SessionFailed_step (rt : Runtime) (message : string) (ev : Event) :
  SessionFailed rt message -> SessionFailed (step rt ev) message.
Proof.
  intros (He & Hl & Hv & Hp & Hr & Hu). destruct ev as [i|text|j s|cookie]; cbn [step].
  - rewrite Hv. repeat split; assumption.
  - rewrite Hv. repeat split; assumption.
  - rewrite Hp. destruct j; cbn; repeat split; assumption.
  - repeat split; assumption.
Qed.

Lemma SessionFailed_run (evs : list Event) (rt : Runtime) (message : string) :
  SessionFailed rt message -> SessionFailed (run rt evs) message.
Proof.
  revert rt. induction evs as [|ev evs IH]; intros rt H; [exact H|].
  cbn [run fold_left]. apply IH. now apply SessionFailed_step.
Qed.

(** C3. Mounting without a [user] cookie ends with the error "User data not
    found"; mounting with a [user] cookie that [JSON.parse] rejects, or whose
    parsed value has no truthy [data.id], ends with an error message too. In
    each case loading is over, the error panel is what is rendered, no
    request was issued, no promise was rejected unhandled, and whatever
    happens afterwards no request is ever issued. *)
Theorem unresolved_session_stops (host : Host) (cookie : string) :
  (CookieAbsent "user" cookie ->
   forall evs, SessionFailed (run (mount host cookie) evs) "User data not found")
  /\ (forall value,
        getCookieByName cookie "user" = Some value ->
        (exists x, JSON_parse host value = Err x)
        \/ (exists parsedJson id,
               JSON_parse host value = Ok parsedJson
               /\ sessionIdOf parsedJson = Ok id
               /\ Js.truthy id = false) ->
        exists message,
          message <> EmptyString
          /\ forall evs, SessionFailed (run (mount host cookie) evs) message).
Proof.
  assert (Hnone : Js.truthyStr (getCookieByName cookie "user") = false ->
                  SessionFailed (mount host cookie) "User data not found").
  { intros H. unfold mount. rewrite (fetchData_no_cookie host cookie H).
    cbn. repeat split. intros x []. }
  split.
  - intros H evs. apply SessionFailed_run, Hnone.
    apply getCookieByName_absent in H. now rewrite H.
  - intros value Hc Hbad. destruct value as [|c value].
    { exists "User data not found". split; [discriminate|].
      intros evs. apply SessionFailed_run, Hnone. now rewrite Hc. }
    destruct Hbad as [[x Hp] | (parsedJson & id & Hp & Hid & Hf)].
    + exists ("Error processing data: " ++ Js.toString x)%string.
      split; [discriminate|]. intros evs. apply SessionFailed_run.
      unfold mount.
      rewrite (fetchData_malformed host cookie (String c value) x Hc ltac:(discriminate) Hp).
      cbn. repeat split. intros y [H|[]]. discriminate H.
    + exists "User ID not found in the cookie data".
      split; [discriminate|]. intros evs. apply SessionFailed_run.
      unfold mount.
      rewrite (fetchData_no_id host cookie (String c value) parsedJson id Hc
                 ltac:(discriminate) Hp Hid Hf).
      cbn. repeat split. intros y [].
Qed.

Lemma unresolved_session_stops_witness :
  SessionFailed (run (mount Demo.host "theme=dark") [SetCookie Demo.cookie; Click 0])
    "User data not found"
  /\ (exists message,
        message <> EmptyString
        /\ forall evs, SessionFailed (run (mount Demo.host "user={oops") evs) message)
  /\ (exists message,
        message <> EmptyString
        /\ forall evs, SessionFailed (run (mount Demo.host "theme=dark; user={}") evs) message).
Proof.
  split; [|split].
  - apply (proj1 (unresolved_session_stops Demo.host "theme=dark")).
    unfold CookieAbsent. cbn. repeat constructor.
  - apply (proj2 (unresolved_session_stops Demo.host "user={oops") "{oops").
    + reflexivity.
    + left. eexists. reflexivity.
  - apply (proj2 (unresolved_session_stops Demo.host "theme=dark; user={}") "{}").
    + reflexivity.
    + right. exists (VObj []), VUndefined. repeat split.
Defined.

(** ** The event loop *)

#[local] Arguments render : simpl never.
#[local] Arguments Invariant : simpl never.
#[local] Arguments Phase : simpl never.
#[local] Arguments viewOf : simpl never.
#[local] Arguments useMemo_courseGrid : simpl never.
#[local] Arguments courseGrid_compute : simpl never.
#[local] Arguments filteredCourses : simpl never.

Lemma render_env (rt : Runtime) : env (render rt) = env rt.
Proof. reflexivity. Qed.

Lemma render_pending (rt : Runtime) : pending (render rt) = pending rt.
Proof. reflexivity. Qed.

Lemma render_view (rt : Runtime) : view (render rt) = viewOf (comp (env rt)).
Proof. reflexivity. Qed.

Lemma render_memo (rt : Runtime) :
  memo (render rt) = Some (useMemo_courseGrid (memo rt) (comp (env rt))).
Proof. reflexivity. Qed.

Lemma nth_error_map_from {A B : Type} (f : A -> nat -> B) (l : list A) (k i : nat) :
  nth_error (map_from f k l) i = option_map (fun x => f x (k + i)) (nth_error l i).
Proof.
  revert k i. induction l as [|x l IH]; intros k [|i]; cbn; try reflexivity.
  - now rewrite Nat.add_0_r.
  - rewrite IH. now rewrite Nat.add_succ_r.
Qed.

Lemma nth_error_js_map {A B : Type} (f : A -> nat -> B) (l : list A) (i : nat) :
  nth_error (js_map f l) i = option_map (fun x => f x i) (nth_error l i).
Proof. apply nth_error_map_from. Qed.

(** A tile on screen comes from the inline callback, applied to the object
    at its position in the filtered list with the flag of the rendered
    state. *)
Lemma tile_on_screen (rt : Runtime) (i : nat) (card : Card) :
  view rt = viewOf (comp (env rt)) ->
  nth_error (tilesOnScreen rt) i = Some (Some card) ->
  isLoading (comp (env rt)) = false
  /\ exists course,
       nth_error (filteredCourses (learningObjects (comp (env rt)))
                    (searchTerm (comp (env rt)))) i = Some course
       /\ inline_item (apiCallInProgress (comp (env rt))) course i = Some card.
Proof.
  unfold tilesOnScreen, viewOf, SakshiEnrolledLearningObjects. cbn [snd].
  intros ->. destruct (isLoading (comp (env rt))).
  { destruct i; discriminate. }
  destruct (Js.truthyStr (error (comp (env rt)))).
  { destruct i; discriminate. }
  destruct (0 <? Datatypes.length (learningObjects (comp (env rt)))).
  2:{ destruct i; discriminate. }
  destruct (0 <? Datatypes.length (filteredCourses _ _)).
  2:{ destruct i; discriminate. }
  rewrite nth_error_js_map. intros H. split; [reflexivity|].
  destruct (nth_error (filteredCourses _ _) i) as [course|]; [|discriminate H].
  exists course. split; [reflexivity|]. now injection H.
Qed.

Lemma inline_item_link (flag : bool) (course : Models.PrimeLearningObject) (index : nat)
    (card : Card) :
  inline_item flag course index = Some card ->
  onClick card = inline_checkCourseAvailability flag (Models.id course).
Proof.
  unfold inline_item.
  destruct (Models.localizedMetadata course) as [[|m rest]|]; try discriminate.
  intros H. injection H as <-. reflexivity.
Qed.

Lemma useMemo_kept (cell : MemoCell) (s : State) :
  memo_dep cell = learningObjects_ref s ->
  useMemo_courseGrid (Some cell) s = cell.
Proof.
  intros H. unfold useMemo_courseGrid. now rewrite H, Nat.eqb_refl.
Qed.

Lemma useMemo_recomputed (cell : MemoCell) (s : State) :
  memo_dep cell <> learningObjects_ref s ->
  useMemo_courseGrid (Some cell) s
  = {| memo_dep := learningObjects_ref s;
       memo_value := courseGrid_compute (apiCallInProgress s) (learningObjects s) |}.
Proof.
  intros H. unfold useMemo_courseGrid.
  now destruct (Nat.eqb_spec (memo_dep cell) (learningObjects_ref s)).
Qed.

(** The invariant after a render, from what the handlers left. *)
Lemma Invariant_render (e : Env) (cell : MemoCell) (v : View) (parked : list Suspended) :
  (memo_dep cell = learningObjects_ref (comp e)
   /\ memo_value cell = courseGrid_compute false (learningObjects (comp e)))
  \/ (memo_dep cell <> learningObjects_ref (comp e) /\ apiCallInProgress (comp e) = false) ->
  Phase (comp e) parked ->
  Invariant (render (mkRuntime e (Some cell) v parked)).
Proof.
  intros Hm Hp. unfold Invariant.
  rewrite render_view, render_env, render_pending, render_memo. cbn [env memo pending].
  split; [reflexivity|]. split; [|exact Hp].
  destruct Hm as [[Hd Hv] | [Hd Hf]].
  - rewrite (useMemo_kept cell (comp e) Hd). eauto.
  - rewrite (useMemo_recomputed cell (comp e) Hd). rewrite Hf. eauto.
Qed.

Lemma Invariant_mount (host : Host) (cookie : string) : Invariant (mount host cookie).
Proof.
  assert (Hidle : forall message shown,
             Invariant (render (mkRuntime (mkEnv (failedState message) cookie shown false)
                                  (Some (useMemo_courseGrid None initialState))
                                  (viewOf initialState) []))).
  { intros message shown. apply Invariant_render.
    - left. split; reflexivity.
    - right. left. repeat split. }
  unfold mount.
  change (SakshiEnrolledLearningObjects None initialState)
    with (useMemo_courseGrid None initialState, viewOf initialState).
  cbv iota beta.
  destruct (getCookieByName cookie "user") as [value|] eqn:Hc.
  2:{ rewrite fetchData_no_cookie by now rewrite Hc. apply Hidle. }
  destruct value as [|c value].
  { rewrite fetchData_no_cookie by now rewrite Hc. apply Hidle. }
  assert (Hne : String c value <> EmptyString) by discriminate.
  destruct (JSON_parse host (String c value)) as [parsedJson|x] eqn:Hp.
  2:{ rewrite (fetchData_malformed host cookie (String c value) x Hc Hne Hp). apply Hidle. }
  destruct (sessionIdOf_total parsedJson) as [id Hid].
  destruct (Js.truthy id) eqn:Ht.
  - destruct (fetchData_fetches host cookie (String c value) parsedJson id Hc Hne Hp Hid Ht)
      as (k & -> & Hk).
    cbn [absorb app]. apply Invariant_render.
    + left. split; reflexivity.
    + left. repeat split. eauto.
  - rewrite (fetchData_no_id host cookie (String c value) parsedJson id Hc Hne Hp Hid Ht).
    apply Hidle.
Qed.

Lemma Phase_same_flags (s s' : State) (parked : list Suspended) :
  isLoading s' = isLoading s ->
  apiCallInProgress s' = apiCallInProgress s ->
  Phase s parked -> Phase s' parked.
Proof.
  unfold Phase. intros -> ->. trivial.
Qed.

Lemma Invariant_click (rt : Runtime) (card : Card) (i : nat) :
  Invariant rt ->
  nth_error (tilesOnScreen rt) i = Some (Some card) ->
  Invariant (render (dispatchClick card rt)).
Proof.
  intros (Hv & (cell & Hm & Hd & Hval) & Hph) Htile.
  destruct (tile_on_screen rt i card Hv Htile) as (Hload & course & _ & Hitem).
  apply inline_item_link in Hitem.
  unfold dispatchClick. rewrite Hitem, Hm.
  destruct Hph as [(Hl & _) | [(_ & Hflag & Hpend) | (_ & Hflag & q & k & Hpend & Hq & Hk)]].
  - congruence.
  - rewrite Hflag, Hpend.
    destruct (getCookieByName (document_cookie (env rt)) "alm_cp_token") as [token|] eqn:Htok.
    + destruct token as [|c token].
      * rewrite check_without_token by (cbn [document_cookie]; now rewrite Htok).
        cbn. apply Invariant_render; [left; split; assumption|].
        right. left. repeat split. exact Hload.
      * destruct (check_with_token (Models.id course) (String c token)
                    (mkEnv (comp (env rt)) (document_cookie (env rt)) (effects (env rt)) false)
                    Htok ltac:(discriminate)) as (k & -> & Hall & _).
        cbn. apply Invariant_render; [left; split; assumption|].
        right. right. repeat split; [exact Hload|]. exists (checkRequest (Models.id course) (String c token)), k.
        repeat split. exact Hall.
    + rewrite check_without_token by (cbn [document_cookie]; now rewrite Htok).
      cbn. apply Invariant_render; [left; split; assumption|].
      right. left. repeat split. exact Hload.
  - rewrite Hflag, check_in_flight. cbn.
    apply Invariant_render; [left; split; assumption|].
    right. right. repeat split; [exact Hload | exact Hflag|]. eauto.
Qed.

Lemma Invariant_step (rt : Runtime) (ev : Event) : Invariant rt -> Invariant (step rt ev).
Proof.
  intros Hinv. destruct ev as [i|text|j s|cookie]; cbn [step].
  - destruct (view rt) as [?|?|box [tiles|?]] eqn:Ev; try exact Hinv.
    destruct (nth_error tiles i) as [[card|]|] eqn:En; try exact Hinv.
    apply (Invariant_click rt card i Hinv). unfold tilesOnScreen. now rewrite Ev.
  - destruct (view rt) as [?|?|[box|] listing] eqn:Ev; try exact Hinv.
    destruct Hinv as (Hv & (cell & Hm & Hd & Hval) & Hph).
    cbn. rewrite Hm. apply Invariant_render; [left; split; assumption|].
    revert Hph. apply Phase_same_flags; reflexivity.
  - destruct (nth_error (pending rt) j) as [[q k]|] eqn:En; [|exact Hinv].
    destruct Hinv as (Hv & (cell & Hm & Hd & Hval) & Hph).
    rewrite Hm.
    destruct Hph as [(Hl & Hflag & q0 & k0 & Hpend & Hq & Hk)
                    | [(_ & _ & Hpend) | (Hl & Hflag & q0 & k0 & Hpend & Hq & Hk)]];
      rewrite Hpend in En |- *.
    + destruct j as [|j]; [|destruct j; discriminate En].
      injection En as <- <-.
      destruct (Hk s (env rt)) as (after & shown & -> & Hl' & Hf' & Hr' & _).
      cbn. apply Invariant_render.
      * right. split; [lia | congruence].
      * right. left. repeat split; congruence.
    + destruct j; discriminate En.
    + destruct j as [|j]; [|destruct j; discriminate En].
      injection En as <- <-.
      destruct (Hk s (env rt)) as (shown & -> & _).
      cbn. apply Invariant_render; [left; split; assumption|].
      right. left. repeat split. exact Hl.
  - exact Hinv.
Qed.

Lemma reachable_Invariant (host : Host) (rt : Runtime) : reachable host rt -> Invariant rt.
Proof.
  induction 1 as [cookie | rt ev _ IH].
  - apply Invariant_mount.
  - now apply Invariant_step.
Qed.

(** A click on a tile while the flag is up: the handler returns at its
    guard, before [preventDefault], so the browser follows the link; nothing
    else changes. *)
Lemma click_in_flight (rt : Runtime) (card : Card) (i : nat) :
  view rt = viewOf (comp (env rt)) ->
  nth_error (tilesOnScreen rt) i = Some (Some card) ->
  apiCallInProgress (comp (env rt)) = true ->
  dispatchClick card rt
  = mkRuntime (mkEnv (comp (env rt)) (document_cookie (env rt))
                 (effects (env rt) ++ [Navigation (href card)]) false)
      (memo rt) (view rt) (pending rt).
Proof.
  intros Hv Htile Hflag.
  destruct (tile_on_screen rt i card Hv Htile) as (_ & course & _ & Hitem).
  apply inline_item_link in Hitem.
  unfold dispatchClick. rewrite Hitem, Hflag, check_in_flight. reflexivity.
Qed.

Lemma step_click (rt : Runtime) (i : nat) :
  (exists card, nth_error (tilesOnScreen rt) i = Some (Some card)
                /\ step rt (Click i) = render (dispatchClick card rt))
  \/ step rt (Click i) = rt.
Proof.
  unfold tilesOnScreen. cbn [step].
  destruct (view rt) as [?|?|box [tiles|?]]; try (now right).
  destruct (nth_error tiles i) as [[card|]|]; try (now right).
  left. now exists card.
Qed.

Lemma step_click_tile (rt : Runtime) (i : nat) (card : Card) :
  nth_error (tilesOnScreen rt) i = Some (Some card) ->
  step rt (Click i) = render (dispatchClick card rt).
Proof.
  unfold tilesOnScreen. cbn [step].
  destruct (view rt) as [?|?|box [tiles|?]]; try (destruct i; discriminate).
  now intros ->.
Qed.

Lemma requests_navigation (e : Env) (h : string) (b : bool) :
  requests (mkEnv (comp e) (document_cookie e) (effects e ++ [Navigation h]) b) = requests e.
Proof.
  unfold requests. cbn [effects]. rewrite flat_map_app. cbn. apply app_nil_r.
Qed.

Lemma alerts_navigation (e : Env) (h : string) (b : bool) :
  alerts (mkEnv (comp e) (document_cookie e) (effects e ++ [Navigation h]) b) = alerts e.
Proof.
  unfold alerts. cbn [effects]. rewrite filter_app. cbn. apply app_nil_r.
Qed.

Lemma navigations_navigation (e : Env) (h : string) (b : bool) :
  navigations (mkEnv (comp e) (document_cookie e) (effects e ++ [Navigation h]) b)
  = (navigations e ++ [h])%list.
Proof.
  unfold navigations. cbn [effects]. now rewrite flat_map_app.
Qed.

(** C2. In every state the component can reach there is at most one
    availability check in flight, and there is one exactly when the flag is
    up; while the flag is up a click on any tile issues no request, parks no
    second check, shows nothing and changes no state cell. *)
Theorem one_check_at_a_time (host : Host) (rt : Runtime) :
  reachable host rt ->
  List.length (checksInFlight rt) <= 1
  /\ (apiCallInProgress (comp (env rt)) = true <-> List.length (checksInFlight rt) = 1)
  /\ (apiCallInProgress (comp (env rt)) = true ->
      forall i,
        requests (env (step rt (Click i))) = requests (env rt)
        /\ pending (step rt (Click i)) = pending rt
        /\ alerts (env (step rt (Click i))) = alerts (env rt)
        /\ comp (env (step rt (Click i))) = comp (env rt)).
Proof.
  intros Hreach. pose proof (reachable_Invariant host rt Hreach) as (Hv & _ & Hph).
  assert (Hcount : (apiCallInProgress (comp (env rt)) = false
                    /\ List.length (checksInFlight rt) = 0)
                   \/ (apiCallInProgress (comp (env rt)) = true
                       /\ List.length (checksInFlight rt) = 1)).
  { unfold checksInFlight.
    destruct Hph as [(_ & Hflag & q & k & -> & Hq & _)
                    | [(_ & Hflag & ->) | (_ & Hflag & q & k & -> & Hq & _)]];
      cbn; try rewrite Hq; cbn; auto. }
  split; [|split].
  - destruct Hcount as [[_ ->] | [_ ->]]; lia.
  - destruct Hcount as [[Hf Hc] | [Hf Hc]]; rewrite Hf, Hc; split; congruence.
  - intros Hflag i.
    destruct (step_click rt i) as [(card & Htile & ->) | ->]; [|repeat split].
    rewrite (click_in_flight rt card i Hv Htile Hflag).
    rewrite render_env, render_pending. cbn [env pending].
    rewrite requests_navigation, alerts_navigation. repeat split.
Qed.

Lemma one_check_at_a_time_witness :
  List.length (checksInFlight Demo.checking) <= 1
  /\ (apiCallInProgress (comp (env Demo.checking)) = true
      <-> List.length (checksInFlight Demo.checking) = 1)
  /\ (apiCallInProgress (comp (env Demo.checking)) = true ->
      forall i,
        requests (env (step Demo.checking (Click i))) = requests (env Demo.checking)
        /\ pending (step Demo.checking (Click i)) = pending Demo.checking
        /\ alerts (env (step Demo.checking (Click i))) = alerts (env Demo.checking)
        /\ comp (env (step Demo.checking (Click i))) = comp (env Demo.checking)).
Proof.
  apply (one_check_at_a_time Demo.host Demo.checking).
  unfold Demo.checking, Demo.loaded.
  apply reachable_step. apply reachable_step. apply reachable_mount.
Defined.

(** In every reachable state with a check in flight, a click on a tile is
    not default-prevented and makes the browser follow the tile's link. *)
Lemma in_flight_click_navigates (host : Host) (rt : Runtime) (i : nat) (card : Card) :
  reachable host rt ->
  apiCallInProgress (comp (env rt)) = true ->
  nth_error (tilesOnScreen rt) i = Some (Some card) ->
  defaultPrevented (env (step rt (Click i))) = false
  /\ navigations (env (step rt (Click i))) = (navigations (env rt) ++ [href card])%list.
Proof.
  intros Hreach Hflag Htile.
  pose proof (reachable_Invariant host rt Hreach) as (Hv & _ & _).
  rewrite (step_click_tile rt i card Htile).
  rewrite (click_in_flight rt card i Hv Htile Hflag), render_env. cbn [env].
  now rewrite navigations_navigation.
Qed.

(** X18. A click that enters the handler with the flag down never leads to
    a navigation: the default is prevented and the handler itself navigates
    nowhere. *)
Lemma entered_click_does_not_navigate (host : Host) (rt : Runtime) (i : nat) :
  reachable host rt ->
  apiCallInProgress (comp (env rt)) = false ->
  navigations (env (step rt (Click i))) = navigations (env rt).
Proof.
  intros Hreach Hflag.
  pose proof (reachable_Invariant host rt Hreach) as (Hv & _ & _).
  destruct (step_click rt i) as [(card & Htile & ->) | ->]; [|reflexivity].
  destruct (tile_on_screen rt i card Hv Htile) as (_ & course & _ & Hitem).
  apply inline_item_link in Hitem.
  rewrite render_env. unfold dispatchClick. rewrite Hitem, Hflag.
  destruct (getCookieByName (document_cookie (env rt)) "alm_cp_token") as [[|c token]|] eqn:Htok.
  - rewrite check_without_token by (cbn [document_cookie]; now rewrite Htok).
    cbn. unfold navigations. cbn. rewrite flat_map_app. cbn. apply app_nil_r.
  - destruct (check_with_token (Models.id course) (String c token)
                (mkEnv (comp (env rt)) (document_cookie (env rt)) (effects (env rt)) false)
                Htok ltac:(discriminate)) as (k & -> & _).
    cbn. unfold navigations. cbn. rewrite flat_map_app. cbn. apply app_nil_r.
  - rewrite check_without_token by (cbn [document_cookie]; now rewrite Htok).
    cbn. unfold navigations. cbn. rewrite flat_map_app. cbn. apply app_nil_r.
Qed.

(** C1, at the failing input. With the availability check of the first tile
    in flight, a click on the second tile is not default-prevented and the
    browser navigates to that tile's link. *)
Theorem click_during_check_navigates :
  apiCallInProgress (comp (env Demo.checking)) = true
  /\ navigations (env Demo.checking) = []
  /\ defaultPrevented (env (step Demo.checking (Click 1))) = false
  /\ navigations (env (step Demo.checking (Click 1)))
     = ["http://localhost:4505/content/learning/language-masters/en/overview.html/trainingId/course:2/trainingInstanceId//home.html"].
Proof. vm_compute. repeat split. Qed.

(** C10. A call of the handler that enters with the flag down ends with the
    flag down on every path: at once when the token is missing; otherwise it
    raises the flag, waits for its request and, however the request settles
    (success, no enrollment, or an error thrown) and whatever happened in
    between, ends without throwing and with the flag down. This holds for
    both copies of the handler. So in every reachable state with the flag up,
    the settlement of the parked check brings the flag down, leaves nothing
    parked, and the tiles then on screen carry handlers whose guard is
    open. *)
Theorem flag_reset_on_every_path :
  (forall courseId e,
      FlagResetOnEveryPath (inline_checkCourseAvailability false courseId e)
      /\ FlagResetOnEveryPath (courseGrid_checkCourseAvailability false courseId e))
  /\ (forall host rt,
        reachable host rt ->
        apiCallInProgress (comp (env rt)) = true ->
        forall settlement,
          let rt' := step rt (Settle 0 settlement) in
          apiCallInProgress (comp (env rt')) = false
          /\ pending rt' = []
          /\ forall i card,
               nth_error (tilesOnScreen rt') i = Some (Some card) ->
               exists course,
                 onClick card = inline_checkCourseAvailability false (Models.id course)).
Proof.
  split; [exact handler_resets_flag|].
  intros host rt Hreach Hflag settlement rt'.
  pose proof (reachable_Invariant host rt' (reachable_step host rt _ Hreach)) as (Hv' & _ & _).
  pose proof (reachable_Invariant host rt Hreach) as (_ & _ & Hph).
  destruct Hph as [(_ & Hf & _) | [(_ & Hf & _) | (_ & _ & q & k & Hpend & _ & Hk)]];
    try congruence.
  assert (Hdown : apiCallInProgress (comp (env rt')) = false /\ pending rt' = []).
  { subst rt'. cbn [step]. rewrite Hpend. cbn [nth_error].
    destruct (Hk settlement (env rt)) as (shown & -> & _).
    cbn [finish absorb remove_nth]. rewrite render_env, render_pending. now split. }
  destruct Hdown as [Hdown Hnone]. repeat split; trivial.
  intros i card Htile.
  destruct (tile_on_screen rt' i card Hv' Htile) as (_ & course & _ & Hitem).
  rewrite Hdown in Hitem. exists course. now apply inline_item_link in Hitem.
Qed.

Lemma flag_reset_on_every_path_witness :
  let rt' := step Demo.checking (Settle 0 (axios_settle NetworkError)) in
  apiCallInProgress (comp (env rt')) = false
  /\ pending rt' = []
  /\ forall i card,
       nth_error (tilesOnScreen rt') i = Some (Some card) ->
       exists course,
         onClick card = inline_checkCourseAvailability false (Models.id course).
Proof.
  apply (proj2 flag_reset_on_every_path Demo.host Demo.checking).
  - unfold Demo.checking, Demo.loaded.
    apply reachable_step. apply reachable_step. apply reachable_mount.
  - reflexivity.
Defined.

(** ** The two render paths *)

Lemma items_same_card (flag : bool) (course : Models.PrimeLearningObject) (i j : nat)
    (a b : Card) :
  courseGrid_item flag course i = Some a ->
  inline_item flag course j = Some b ->
  SameCard a b.
Proof.
  unfold courseGrid_item, inline_item.
  destruct (Models.localizedMetadata course) as [[|m rest]|]; try discriminate.
  intros Ha Hb. injection Ha as <-. injection Hb as <-.
  repeat split.
Qed.

(** C9, the claim as stated, fails in the reachable state with a check in
    flight: for the first course the tile of the memoized grid and the tile
    on screen do not behave alike on a click; the memoized one, computed
    when the flag was down, would start a second check. *)
Lemma grids_disagree_counterexample :
  reachable Demo.host Demo.checking /\ ~ GridsAgree Demo.checking.
Proof.
  split.
  - unfold Demo.checking, Demo.loaded.
    apply reachable_step. apply reachable_step. apply reachable_mount.
  - intros H.
    assert (Hm : exists cell a b,
               memo Demo.checking = Some cell
               /\ nth_error (memo_value cell) 0 = Some (Some a)
               /\ nth_error (tilesOnScreen Demo.checking) 0 = Some (Some b)
               /\ onClick a (mkEnv initialState Demo.cookie [] false)
                  <> onClick b (mkEnv initialState Demo.cookie [] false)).
    { eexists. eexists. eexists. split; [reflexivity|]. split; [reflexivity|].
      split; [reflexivity|]. vm_compute. discriminate. }
    destruct Hm as (cell & a & b & Hcell & Ha & Hb & Hne).
    apply Hne.
    apply (H cell 0 0 Demo.intro a b Hcell); trivial; reflexivity.
Qed.

Lemma items_same_face (flag flag' : bool) (course : Models.PrimeLearningObject) (i j : nat)
    (a b : Card) :
  courseGrid_item flag course i = Some a ->
  inline_item flag' course j = Some b ->
  SameFace a b
  /\ onClick a = inline_checkCourseAvailability flag (Models.id course)
  /\ onClick b = inline_checkCourseAvailability flag' (Models.id course).
Proof.
  unfold courseGrid_item, inline_item.
  destruct (Models.localizedMetadata course) as [[|m rest]|]; try discriminate.
  intros Ha Hb. injection Ha as <-. injection Hb as <-.
  repeat split.
Qed.

Lemma dispatchClick_memo (card : Card) (rt : Runtime) :
  memo (dispatchClick card rt) = memo rt.
Proof.
  unfold dispatchClick. now destruct (absorb _ _).
Qed.

(** After an event the memo cell is the one [useMemo] gives for the new
    state from the cell before, unless nothing was rendered. *)
Lemma step_memo (rt : Runtime) (ev : Event) :
  memo (step rt ev) = memo rt
  \/ memo (step rt ev)
     = Some (useMemo_courseGrid (memo rt) (comp (env (step rt ev)))).
Proof.
  destruct ev as [i|text|j s|cookie].
  - destruct (step_click rt i) as [(card & _ & ->) | ->]; [|now left].
    right. now rewrite render_memo, render_env, dispatchClick_memo.
  - cbn [step]. destruct (view rt) as [?|?|[box|] listing]; try (now left).
    right. destruct (absorb _ _). now rewrite render_memo, render_env.
  - cbn [step]. destruct (nth_error (pending rt) j) as [[q k]|]; [|now left].
    right. destruct (absorb _ _). now rewrite render_memo, render_env.
  - now left.
Qed.

Lemma tiles_when_loaded (rt : Runtime) :
  view rt = viewOf (comp (env rt)) ->
  isLoading (comp (env rt)) = false ->
  Js.truthyStr (error (comp (env rt))) = false ->
  tilesOnScreen rt
  = js_map (inline_item (apiCallInProgress (comp (env rt))))
      (filteredCourses (learningObjects (comp (env rt))) (searchTerm (comp (env rt)))).
Proof.
  intros Hv Hl He. unfold tilesOnScreen. rewrite Hv.
  unfold viewOf, SakshiEnrolledLearningObjects. cbn [snd]. rewrite Hl, He.
  remember (filteredCourses (learningObjects (comp (env rt))) (searchTerm (comp (env rt))))
    as filtered eqn:Ef.
  destruct (learningObjects (comp (env rt))) as [|c l].
  - unfold filteredCourses in Ef. destruct (JsString.isEmpty _) in Ef; cbn in Ef; now subst.
  - cbn [List.length Nat.ltb Nat.leb]. now destruct filtered.
Qed.

(** C9, amended. The callbacks of the two paths are the same function of
    the flag captured at render time, the learning object and the index. In
    every reachable state the memoized grid is the one computed over the
    whole fetched list with the flag down, and an event that does not
    replace the fetched list leaves it as it is; the grid on screen is
    computed over the filtered list with the current flag. So in every
    reachable state, for every learning object that has a tile in both, the
    two tiles have the same link, image and fallback, title and description,
    and their click handlers are the same handler but for the captured flag,
    false in the memoized tile and the current value on screen: whenever no
    check is in flight the two tiles are the same card. The tree the
    component returns never depends on the memoized grid. *)
Theorem render_paths_compared :
  (forall flag course index,
      courseGrid_item flag course index = inline_item flag course index)
  /\ (forall host rt,
        reachable host rt ->
        (exists cell,
            memo rt = Some cell
            /\ memo_dep cell = learningObjects_ref (comp (env rt))
            /\ memo_value cell
               = js_map (courseGrid_item false) (learningObjects (comp (env rt))))
        /\ (forall ev,
              learningObjects_ref (comp (env (step rt ev)))
              = learningObjects_ref (comp (env rt)) ->
              memo (step rt ev) = memo rt)
        /\ (isLoading (comp (env rt)) = false ->
            Js.truthyStr (error (comp (env rt))) = false ->
            tilesOnScreen rt
            = js_map (inline_item (apiCallInProgress (comp (env rt))))
                (filteredCourses (learningObjects (comp (env rt)))
                   (searchTerm (comp (env rt)))))
        /\ (forall cell i j course a b,
              memo rt = Some cell ->
              nth_error (learningObjects (comp (env rt))) i = Some course ->
              nth_error (filteredCourses (learningObjects (comp (env rt)))
                           (searchTerm (comp (env rt)))) j = Some course ->
              nth_error (memo_value cell) i = Some (Some a) ->
              nth_error (tilesOnScreen rt) j = Some (Some b) ->
              SameFace a b
              /\ onClick a = inline_checkCourseAvailability false (Models.id course)
              /\ onClick b
                 = inline_checkCourseAvailability (apiCallInProgress (comp (env rt)))
                     (Models.id course))
        /\ (apiCallInProgress (comp (env rt)) = false -> GridsAgree rt))
  /\ (forall previous previous' s,
        snd (SakshiEnrolledLearningObjects previous s)
        = snd (SakshiEnrolledLearningObjects previous' s)).
Proof.
  split; [reflexivity|]. split; [|reflexivity].
  intros host rt Hreach.
  pose proof (reachable_Invariant host rt Hreach) as (Hv & (cell & Hm & Hd & Hval) & _).
  assert (Hboth : forall cell' i j course a b,
             memo rt = Some cell' ->
             nth_error (learningObjects (comp (env rt))) i = Some course ->
             nth_error (filteredCourses (learningObjects (comp (env rt)))
                          (searchTerm (comp (env rt)))) j = Some course ->
             nth_error (memo_value cell') i = Some (Some a) ->
             nth_error (tilesOnScreen rt) j = Some (Some b) ->
             courseGrid_item false course i = Some a
             /\ inline_item (apiCallInProgress (comp (env rt))) course j = Some b).
  { intros cell' i j course a b Hcell Hi Hj Ha Hb.
    rewrite Hm in Hcell. injection Hcell as <-.
    rewrite Hval in Ha. unfold courseGrid_compute in Ha.
    rewrite nth_error_js_map, Hi in Ha. cbn [option_map] in Ha. injection Ha as Ha.
    destruct (tile_on_screen rt j b Hv Hb) as (_ & course' & Hj' & Hitem).
    rewrite Hj in Hj'. injection Hj' as <-. now split. }
  split; [|split; [|split; [|split]]].
  - exists cell. repeat split; assumption.
  - intros ev Href. destruct (step_memo rt ev) as [H|H]; [exact H|].
    rewrite H, Hm. f_equal. apply useMemo_kept. congruence.
  - now apply tiles_when_loaded.
  - intros cell' i j course a b Hcell Hi Hj Ha Hb.
    destruct (Hboth cell' i j course a b Hcell Hi Hj Ha Hb) as [Ha' Hb'].
    exact (items_same_face false _ course i j a b Ha' Hb').
  - intros Hflag cell' i j course a b Hcell Hi Hj Ha Hb.
    destruct (Hboth cell' i j course a b Hcell Hi Hj Ha Hb) as [Ha' Hb'].
    rewrite Hflag in Hb'. exact (items_same_card false course i j a b Ha' Hb').
Qed.

Lemma render_paths_compared_witness :
  (forall ev,
      learningObjects_ref (comp (env (step Demo.checking ev)))
      = learningObjects_ref (comp (env Demo.checking)) ->
      memo (step Demo.checking ev) = memo Demo.checking)
  /\ tilesOnScreen Demo.checking
     = js_map (inline_item true) [Demo.intro; Demo.advanced].
Proof.
  assert (Hreach : reachable Demo.host Demo.checking).
  { unfold Demo.checking, Demo.loaded.
    apply reachable_step. apply reachable_step. apply reachable_mount. }
  pose proof (proj1 (proj2 render_paths_compared) Demo.host Demo.checking Hreach)
    as (_ & Hkeep & Htiles & _).
  split; [exact Hkeep|]. exact (Htiles eq_refl eq_refl).
Defined.

(** ** Runs of the example session *)

Example getCookieByName_run :
  getCookieByName Demo.cookie "alm_cp_token" = Some "tok123"
  /\ getCookieByName Demo.cookie "user" = Some Demo.user_json
  /\ getCookieByName "theme=dark; user=" "user" = Some ""
  /\ getCookieByName "theme=dark" "user" = None.
Proof. repeat split. Qed.

Example mount_run :
  view (mount Demo.host Demo.cookie) = LoadingMessage "Loading your learning objects..."
  /\ requests (env (mount Demo.host Demo.cookie)) = [catalogRequest Demo.host (VStr "42")]
  /\ List.length (pending (mount Demo.host Demo.cookie)) = 1.
Proof. repeat split. Qed.

Example loaded_run :
  map (option_map title) (tilesOnScreen Demo.loaded) = [Some "Intro"; Some "Advanced"]
  /\ map (option_map descriptionText) (tilesOnScreen Demo.loaded)
     = [Some "No description available"; Some "Deep dive"]
  /\ map (option_map title) (tilesOnScreen (step Demo.loaded (TypeSearch "deep")))
     = [Some "Advanced"].
Proof. repeat split. Qed.

Example check_run :
  requests (env Demo.checking)
  = [catalogRequest Demo.host (VStr "42"); checkRequest "course:1" "tok123"]
  /\ defaultPrevented (env Demo.checking) = true
  /\ alerts (env (step Demo.checking
                    (Settle 0 (axios_settle (HttpResponse 200 Demo.body_enrolled)))))
     = [Alert true "COURSE Intro IS AVAILABLE FOR YOU!" AlertType.success true]
  /\ alerts (env (step Demo.checking (Settle 0 (axios_settle (HttpResponse 404 VNull)))))
     = [Alert true "FAILED TO VERIFY COURSE AVAILABILITY" AlertType.error true].
Proof. vm_compute. repeat split. Qed.

Example string_runs :
  JsString.trim "  alm_cp_token=abc " = "alm_cp_token=abc"
  /\ JsString.split ";" "a=1; b=2;" = ["a=1"; " b=2"; ""]
  /\ JsString.substring "abcdef" 0 3 = "abc"
  /\ JsString.includes (JsString.toLowerCase "Intro To ROCQ") (JsString.toLowerCase "to r") = true
  /\ Js.encodeURIComponent "course:1" = "course%3A1".
Proof. repeat split. Qed.

(* ===================================================================== *)
(** * Further properties *)
(* ===================================================================== *)

(** ** [getCookieByName] *)

Lemma split_nonempty (sep : ascii) (s : string) : JsString.split sep s <> [].
Proof.
  destruct s as [|c s]; cbn; [discriminate|].
  destruct (Ascii.eqb c sep); [discriminate|].
  destruct (JsString.split sep s); discriminate.
Qed.

Lemma split_app (sep : ascii) (a b : string) :
  JsString.split sep (a ++ String sep b)
  = (JsString.split sep a ++ JsString.split sep b)%list.
Proof.
  induction a as [|c a IH].
  - change (EmptyString ++ String sep b)%string with (String sep b).
    cbn [JsString.split]. now rewrite Ascii.eqb_refl.
  - change (String c a ++ String sep b)%string with (String c (a ++ String sep b)).
    cbn [JsString.split]. rewrite IH.
    destruct (Ascii.eqb c sep); [reflexivity|].
    destruct (JsString.split sep a) eqn:E; [now apply split_nonempty in E | reflexivity].
Qed.

Lemma split_without (sep : ascii) (s : string) :
  Without sep s -> JsString.split sep s = [s].
Proof.
  unfold Without. induction s as [|c s IH]; cbn; [reflexivity|].
  intros H. inversion H as [|? ? Hc Hs]; subst.
  destruct (Ascii.eqb_spec c sep); [contradiction|]. now rewrite (IH Hs).
Qed.

Lemma getCookieByName_loop_app (name : string) (l1 l2 : list string) :
  getCookieByName_loop name (l1 ++ l2)
  = match getCookieByName_loop name l1 with
    | Some v => Some v
    | None => getCookieByName_loop name l2
    end.
Proof.
  induction l1 as [|p l1 IH]; cbn [app getCookieByName_loop]; [reflexivity|].
  now destruct (JsString.startsWith _ _).
Qed.

Lemma string_length_app (a b : string) :
  String.length (a ++ b) = String.length a + String.length b.
Proof.
  induction a as [|c a IH]; [reflexivity|].
  change (String c a ++ b)%string with (String c (a ++ b)). cbn. now rewrite IH.
Qed.

Lemma substring_drop (a b : string) :
  String.substring (String.length a) (String.length b) (a ++ b) = b.
Proof.
  induction a as [|c a IH].
  - change (EmptyString ++ b)%string with b. cbn [String.length].
    induction b as [|c b IHb]; [reflexivity|]. cbn. now rewrite IHb.
  - change (String c a ++ b)%string with (String c (a ++ b)). exact IH.
Qed.

Lemma substringFrom_app (a b : string) :
  JsString.substringFrom (a ++ b) (String.length a) = b.
Proof.
  unfold JsString.substringFrom, JsString.substring.
  rewrite string_length_app.
  rewrite (Nat.min_l (String.length a)) by lia.
  rewrite (Nat.min_l (String.length a)) by lia.
  rewrite Nat.max_r by lia. rewrite Nat.min_id.
  replace (String.length a + String.length b - String.length a) with (String.length b) by lia.
  apply substring_drop.
Qed.

(** What a piece that answers for [name] gives. *)
Lemma named_piece (name value piece : string) :
  JsString.trim piece = (name ++ "=" ++ value)%string ->
  JsString.startsWith (JsString.trim piece) (name ++ "=") = true
  /\ JsString.substringFrom (JsString.trim piece) (String.length name + 1) = value.
Proof.
  intros ->. split.
  - apply prefix_iff. exists value. clear. induction name as [|c n IH]; [reflexivity|].
    change (String c n ++ "=" ++ value)%string with (String c (n ++ "=" ++ value)).
    change ((String c n ++ "=") ++ value)%string with (String c ((n ++ "=") ++ value)).
    now rewrite IH.
  - replace (name ++ "=" ++ value)%string with ((name ++ "=") ++ value)%string.
    + replace (String.length name + 1) with (String.length (name ++ "="))
        by (rewrite string_length_app; reflexivity).
      apply substringFrom_app.
    + clear. induction name as [|c n IH]; [reflexivity|].
      change ((String c n ++ "=") ++ value)%string with (String c ((n ++ "=") ++ value)).
      now rewrite IH.
Qed.

Lemma trim_leading_space (s : string) :
  JsString.trim (String " " s) = JsString.trim s.
Proof. reflexivity. Qed.

(** X1. Round trip through [document.cookie]: a cookie written as the piece
    [name=value], without a semicolon and without surrounding whitespace,
    alone or after pieces none of which answers for [name], and whatever
    follows it, is read back as [value]. *)
Theorem getCookieByName_round_trip (lead rest name value : string) :
  Without ";" (name ++ "=" ++ value) ->
  JsString.trim (name ++ "=" ++ value) = (name ++ "=" ++ value)%string ->
  lead = EmptyString
  \/ (exists before, CookieAbsent name before /\ lead = (before ++ "; ")%string) ->
  rest = EmptyString \/ (exists after, rest = String ";" after) ->
  getCookieByName (lead ++ (name ++ "=" ++ value) ++ rest) name = Some value.
Proof.
  intros Hsemi Htrim Hlead Hrest.
  set (piece := (name ++ "=" ++ value)%string) in *.
  assert (Hhead : forall p, Without ";" p ->
            exists tl, JsString.split ";" (p ++ rest) = p :: tl).
  { intros p Hp. destruct Hrest as [-> | [after ->]].
    - exists []. replace (p ++ "")%string with p; [now apply split_without|].
      clear. induction p as [|c p IH]; [reflexivity|].
      change (String c p ++ "")%string with (String c (p ++ "")). now rewrite <- IH.
    - rewrite split_app, (split_without ";" p Hp). eexists. reflexivity. }
  assert (Hfound : forall p tl, JsString.trim p = piece ->
            getCookieByName_loop name (p :: tl) = Some value).
  { intros p tl Hp. destruct (named_piece name value p Hp) as [H1 H2].
    cbn [getCookieByName_loop]. now rewrite H1, H2. }
  unfold getCookieByName.
  destruct Hlead as [-> | (before & Habsent & ->)].
  - change (EmptyString ++ piece ++ rest)%string with (piece ++ rest)%string.
    destruct (Hhead piece Hsemi) as [tl ->]. now apply Hfound.
  - replace ((before ++ "; ") ++ piece ++ rest)%string
      with (before ++ String ";" (String " " piece ++ rest))%string.
    + rewrite split_app, getCookieByName_loop_app.
      apply getCookieByName_absent in Habsent. unfold getCookieByName in Habsent.
      rewrite Habsent.
      destruct (Hhead (String " " piece)) as [tl ->].
      * unfold Without. cbn. constructor; [discriminate | exact Hsemi].
      * apply Hfound. now rewrite trim_leading_space.
    + clear. induction before as [|c b IH]; [reflexivity|].
      change (String c b ++ String ";" (String " " piece ++ rest))%string
        with (String c (b ++ String ";" (String " " piece ++ rest))).
      change ((String c b ++ "; ") ++ piece ++ rest)%string
        with (String c ((b ++ "; ") ++ piece ++ rest)).
      now rewrite IH.
Qed.

Lemma getCookieByName_round_trip_witness :
  getCookieByName "theme=dark; alm_cp_token=a=b;user=x" "alm_cp_token" = Some "a=b".
Proof.
  apply (getCookieByName_round_trip "theme=dark; " ";user=x" "alm_cp_token" "a=b").
  - unfold Without. cbn. repeat (constructor; [discriminate|]). constructor.
  - reflexivity.
  - right. exists "theme=dark". split; [|reflexivity].
    unfold CookieAbsent. cbn. repeat constructor.
  - right. now exists "user=x".
Defined.

(** X2. [getCookieByName] answers with the first piece that, once trimmed,
    starts with [name=]: it returns [value] exactly when the pieces before
    some piece do not answer for [name] and that piece, trimmed, reads
    [name=value]. *)
Theorem getCookieByName_first_match (cookie name value : string) :
  getCookieByName cookie name = Some value
  <-> exists before piece after,
        JsString.split ";" cookie = (before ++ piece :: after)%list
        /\ Forall (NotNamed name) before
        /\ JsString.trim piece = (name ++ "=" ++ value)%string.
Proof.
  unfold getCookieByName. generalize (JsString.split ";" cookie) as pieces.
  assert (Hassoc : forall a b c : string, ((a ++ b) ++ c = a ++ b ++ c)%string).
  { intros a b c. induction a as [|x a IH]; [reflexivity|].
    change ((String x a ++ b) ++ c)%string with (String x ((a ++ b) ++ c)).
    now rewrite IH. }
  induction pieces as [|p pieces IH]; cbn [getCookieByName_loop].
  - split; [discriminate|]. intros (before & piece & after & H & _).
    destruct before; discriminate H.
  - destruct (JsString.startsWith (JsString.trim p) (name ++ "=")) eqn:E.
    + split.
      * intros H. injection H as <-. exists [], p, pieces. split; [reflexivity|].
        split; [constructor|].
        apply prefix_iff in E as [r Hr]. rewrite Hr at 1. rewrite Hassoc. f_equal. f_equal.
        rewrite Hr.
        replace (String.length name + 1) with (String.length (name ++ "="))
          by (rewrite string_length_app; reflexivity).
        symmetry. apply substringFrom_app.
      * intros (before & piece & after & H & Hb & Hp).
        destruct before as [|b before].
        -- injection H as -> ->. now destruct (named_piece name value piece Hp) as [_ ->].
        -- injection H as -> ->. inversion Hb as [|? ? Hn _]; subst.
           unfold NotNamed in Hn. congruence.
    + rewrite IH. split.
      * intros (before & piece & after & -> & Hb & Hp).
        exists (p :: before), piece, after. repeat split; trivial. now constructor.
      * intros (before & piece & after & H & Hb & Hp).
        destruct before as [|b before].
        -- injection H as -> ->. destruct (named_piece name value piece Hp) as [Hs _].
           congruence.
        -- injection H as -> ->. inversion Hb; subst. now exists before, piece, after.
Qed.

Lemma same_name (name other value : string) :
  Without "=" name -> Without "=" other ->
  String.prefix (name ++ "=") (other ++ "=" ++ value) = true -> name = other.
Proof.
  unfold Without. revert other. induction name as [|a name IH]; intros [|c other] Hn Ho H.
  - reflexivity.
  - change (String.prefix "=" (String c (other ++ "=" ++ value)) = true) in H.
    cbn [String.prefix] in H.
    cbn in Ho. inversion Ho as [|? ? Hc _]; subst.
    destruct (Ascii.ascii_dec "=" c) as [<-|]; [now contradiction Hc | discriminate H].
  - change (String.prefix (String a (name ++ "=")) (String "=" value) = true) in H.
    cbn [String.prefix] in H.
    cbn in Hn. inversion Hn as [|? ? Ha _]; subst.
    destruct (Ascii.ascii_dec a "=") as [->|]; [now contradiction Ha | discriminate H].
  - change (String.prefix (String a (name ++ "=")) (String c (other ++ "=" ++ value)) = true) in H.
    cbn [String.prefix] in H.
    destruct (Ascii.ascii_dec a c) as [->|]; [|discriminate H].
    cbn in Hn, Ho. inversion Hn; inversion Ho; subst. f_equal. now apply IH.
Qed.

(** X3. A cookie answers only for its exact name: when every piece of
    [document.cookie] reads, once trimmed, [other=value] for a name [other]
    different from [name] (names without [=]), no value is found for
    [name], even if [name] is the beginning of such a name. *)
Theorem getCookieByName_exact_name (cookie name : string) :
  Without "=" name ->
  Forall (fun piece => exists other value,
              JsString.trim piece = (other ++ "=" ++ value)%string
              /\ Without "=" other /\ other <> name)
         (JsString.split ";" cookie) ->
  getCookieByName cookie name = None.
Proof.
  intros Hn H. apply getCookieByName_absent. unfold CookieAbsent.
  induction H as [|p l (other & value & Hp & Ho & Hne) _ IH]; constructor; [|exact IH].
  unfold JsString.startsWith. rewrite Hp.
  destruct (String.prefix (name ++ "=") (other ++ "=" ++ value)) eqn:E; [|reflexivity].
  apply same_name in E; trivial. congruence.
Qed.

Lemma getCookieByName_exact_name_witness :
  getCookieByName "username=ann; users=3" "user" = None.
Proof.
  apply (getCookieByName_exact_name "username=ann; users=3" "user").
  - unfold Without. cbn. repeat (constructor; [discriminate|]). constructor.
  - cbn. constructor; [|constructor; [|constructor]].
    + exists "username", "ann". split; [reflexivity|]. split; [|discriminate].
      unfold Without. cbn. repeat (constructor; [discriminate|]). constructor.
    + exists "users", "3". split; [reflexivity|]. split; [|discriminate].
      unfold Without. cbn. repeat (constructor; [discriminate|]). constructor.
Defined.

(** ** The availability check, further *)

(** X4. A token cookie that is present with an empty value counts as
    missing: a click that enters the handler shows the alert
    "AUTHENTICATION TOKEN NOT FOUND", issues no request and leaves the flag
    down. *)
Theorem empty_token_aborts (courseId : string) (e : Env) :
  getCookieByName (document_cookie e) "alm_cp_token" = Some EmptyString ->
  exists after,
    inline_checkCourseAvailability false courseId e = Returned after
    /\ alerts after
       = (alerts e ++ [Alert true "AUTHENTICATION TOKEN NOT FOUND" AlertType.error true])%list
    /\ requests after = requests e
    /\ apiCallInProgress (comp after) = false.
Proof.
  intros H. eexists. split.
  - apply check_without_token. now rewrite H.
  - rewrite alerts_withEffect, requests_withEffect. cbn [app].
    split; [reflexivity|]. split; [apply app_nil_r | reflexivity].
Qed.

Lemma empty_token_aborts_witness :
  exists after,
    inline_checkCourseAvailability false "course:1"
      (mkEnv initialState "theme=dark; alm_cp_token=" [] false) = Returned after
    /\ alerts after = [Alert true "AUTHENTICATION TOKEN NOT FOUND" AlertType.error true]
    /\ requests after = []
    /\ apiCallInProgress (comp after) = false.
Proof.
  apply (empty_token_aborts "course:1" (mkEnv initialState "theme=dark; alm_cp_token=" [] false)).
  reflexivity.
Defined.



Lemma alerts_finish_one (later : Env) (a : Effect) (rest : list Effect) (after : Env) :
  finish later (a :: rest) = Normal tt after ->
  isAlert a = true ->
  Forall (fun x => isAlert x = false) rest ->
  alerts after = (alerts later ++ [a])%list.
Proof.
  unfold finish. intros H Ha Hrest. injection H as <-.
  unfold alerts. cbn [effects]. rewrite filter_app. f_equal.
  cbn [filter]. fold isAlert. change (isAlert a = true) in Ha.
  replace (match a with Alert _ _ _ _ => true | _ => false end) with (isAlert a) by reflexivity.
  rewrite Ha. f_equal.
  induction Hrest as [|x l Hx _ IH]; [reflexivity|].
  cbn [filter]. replace (match x with Alert _ _ _ _ => true | _ => false end)
    with (isAlert x) by reflexivity. now rewrite Hx.
Qed.

Lemma check_with_token_shows (courseId token : string) (e : Env) :
  getCookieByName (document_cookie e) "alm_cp_token" = Some token ->
  token <> EmptyString ->
  exists q suspended k,
    inline_checkCourseAvailability false courseId e = Awaiting q suspended k
    /\ alerts suspended = alerts e
    /\ forall settlement later,
         exists a rest,
           k settlement later = finish later (a :: rest)
           /\ isAlert a = true
           /\ Forall (fun x => isAlert x = false) rest.
Proof.
  intros Htok Hne.
  assert (Ht : Js.truthyStr (Some token) = true) by (now destruct token).
  unfold inline_checkCourseAvailability, getCookie.
  cbn. rewrite Htok, Ht. cbn.
  eexists. eexists. eexists. split; [reflexivity|]. split.
  { unfold alerts. cbn [effects]. rewrite filter_app. cbn. apply app_nil_r. }
  intros settlement later. unfold finish.
  assert (Hg : forall x r,
             r = Normal tt (mkEnv (withFlag false (comp later)) (document_cookie later)
                              ((effects later
                                ++ [Alert true "FAILED TO VERIFY COURSE AVAILABILITY"
                                      AlertType.error true])
                               ++ [ConsoleError "Error checking course availability:" x])
                              (defaultPrevented later)) ->
             exists a rest,
               r = Normal tt (mkEnv (withFlag false (comp later)) (document_cookie later)
                                (effects later ++ a :: rest) (defaultPrevented later))
               /\ isAlert a = true /\ Forall (fun y => isAlert y = false) rest).
  { intros x r ->. eexists. eexists. split; [now rewrite <- app_assoc|].
    split; [reflexivity | repeat constructor]. }
  assert (Ha : forall m t r,
             r = Normal tt (mkEnv (withFlag false (comp later)) (document_cookie later)
                              (effects later ++ [Alert true m t true])
                              (defaultPrevented later)) ->
             exists a rest,
               r = Normal tt (mkEnv (withFlag false (comp later)) (document_cookie later)
                                (effects later ++ a :: rest) (defaultPrevented later))
               /\ isAlert a = true /\ Forall (fun y => isAlert y = false) rest).
  { intros m t r ->. eexists. eexists. split; [reflexivity|].
    split; [reflexivity | constructor]. }
  destruct settlement as [response|x]; cbn; [|eapply Hg; reflexivity].
  destruct (Js.getProp response "data") as [data|x]; cbn; [|eapply Hg; reflexivity].
  destruct (Js.getProp data "data") as [data'|x]; cbn; [|eapply Hg; reflexivity].
  destruct (Js.getProp data' "attributes") as [attributes|x]; cbn; [|eapply Hg; reflexivity].
  destruct (Js.getProp attributes "localizedMetadata") as [localizedMetadata|x]; cbn;
    [|eapply Hg; reflexivity].
  destruct (Js.getIndex localizedMetadata 0) as [metadata|x]; cbn; [|eapply Hg; reflexivity].
  destruct (Js.getProp metadata "name") as [name|x]; cbn; [|eapply Hg; reflexivity].
  destruct (Js.getProp response "status") as [status|x]; cbn; [|eapply Hg; reflexivity].
  destruct (Js.strictEqualsNumber status "200"); cbn; [|eapply Ha; reflexivity].
  destruct (Js.getProp data' "relationships") as [relationships|x]; cbn;
    [|eapply Hg; reflexivity].
  destruct (Js.getProp relationships "enrollment") as [enrollment|x]; cbn;
    [|eapply Hg; reflexivity].
  destruct (Js.truthy enrollment); eapply Ha; reflexivity.
Qed.

(** X14. Every availability check that is entered shows exactly one alert:
    the call either returns at once having added one alert (no usable
    token), or it stops at its request without an alert and, however the
    request settles, ends normally having added exactly one alert. *)
Theorem check_shows_one_alert (courseId : string) (e : Env) :
  match inline_checkCourseAvailability false courseId e with
  | Awaiting _ suspended k =>
      alerts suspended = alerts e
      /\ forall settlement later,
           exists after a,
             k settlement later = Normal tt after
             /\ isAlert a = true
             /\ alerts after = (alerts later ++ [a])%list
  | Returned after =>
      exists a, isAlert a = true /\ alerts after = (alerts e ++ [a])%list
  | Normal _ _ => False
  | Thrown _ _ => False
  end.
Proof.
  destruct (getCookieByName (document_cookie e) "alm_cp_token") as [[|c token]|] eqn:Htok.
  - rewrite check_without_token by now rewrite Htok.
    exists (Alert true "AUTHENTICATION TOKEN NOT FOUND" AlertType.error true).
    split; [reflexivity|]. now rewrite alerts_withEffect.
  - destruct (check_with_token_shows courseId (String c token) e Htok ltac:(discriminate))
      as (q & suspended & k & -> & Hs & Hk).
    split; [exact Hs|]. intros settlement later.
    destruct (Hk settlement later) as (a & rest & Hfin & Ha & Hrest).
    eexists. exists a. split; [rewrite Hfin; reflexivity|]. split; [exact Ha|].
    now apply (alerts_finish_one later a rest _ eq_refl).
  - rewrite check_without_token by now rewrite Htok.
    exists (Alert true "AUTHENTICATION TOKEN NOT FOUND" AlertType.error true).
    split; [reflexivity|]. now rewrite alerts_withEffect.
Qed.

(** ** Session and catalog, further *)

(** X5. A [user] cookie that is present with an empty value counts as
    missing: whatever the host's [JSON.parse] would make of it, mounting ends
    with the error "User data not found" and nothing is ever requested. *)
Theorem empty_user_cookie_stops (host : Host) (cookie : string) :
  getCookieByName cookie "user" = Some EmptyString ->
  forall evs, SessionFailed (run (mount host cookie) evs) "User data not found".
Proof.
  intros H evs. apply SessionFailed_run. unfold mount.
  rewrite (fetchData_no_cookie host cookie) by now rewrite H.
  cbn. repeat split. intros x [].
Qed.

Lemma empty_user_cookie_stops_witness :
  SessionFailed (run (mount Demo.host "user=; alm_cp_token=tok123") [Click 0; TypeSearch "a"])
    "User data not found".
Proof.
  apply (empty_user_cookie_stops Demo.host "user=; alm_cp_token=tok123").
  reflexivity.
Defined.

Lemma mount_unfold (host : Host) (cookie : string) :
  mount host cookie
  = let (e, parked) := absorb (fetchData host (mkEnv initialState cookie [] false)) [] in
    render (mkRuntime e (Some (useMemo_courseGrid None initialState))
              (viewOf initialState) parked).
Proof. reflexivity. Qed.

(** The rest of [fetchData] after the catalog request, case by case. *)
Lemma fetchData_continuation (host : Host) (cookie value : string) (parsedJson id : JsVal) :
  getCookieByName cookie "user" = Some value ->
  value <> EmptyString ->
  JSON_parse host value = Ok parsedJson ->
  sessionIdOf parsedJson = Ok id ->
  Js.truthy id = true ->
  exists k,
    fetchData host (mkEnv initialState cookie [] false)
    = Awaiting (catalogRequest host id)
        (mkEnv (mkState (Some id) [] 0 true None false "") cookie
           [Issued (catalogRequest host id)] false) k
    /\ (forall response l later,
          JsonApiParse host response = Ok {| Models.learningObjectList := l |} ->
          k (Fulfilled response) later
          = Normal tt
              (mkEnv (mkState (userId (comp later))
                        (match l with Some l' => l' | None => [] end)
                        (S (learningObjects_ref (comp later))) false (error (comp later))
                        (apiCallInProgress (comp later)) (searchTerm (comp later)))
                 (document_cookie later) (effects later) (defaultPrevented later)))
    /\ (forall settlement x later,
          settlement = Rejected x
          \/ (exists response,
                 settlement = Fulfilled response /\ JsonApiParse host response = Err x) ->
          k settlement later
          = Normal tt
              (mkEnv (mkState (userId (comp later)) [] (S (learningObjects_ref (comp later)))
                        false (Some ("Error loading learning objects: " ++ Js.toString x))
                        (apiCallInProgress (comp later)) (searchTerm (comp later)))
                 (document_cookie later)
                 (effects later ++ [ConsoleError "Error while loading learning objects:" x])
                 (defaultPrevented later))).
Proof.
  intros Hc Hne Hp Hid Ht'.
  assert (Ht : Js.truthyStr (Some value) = true) by (now destruct value).
  destruct (sessionIdOf_truthy parsedJson id Hid Ht') as (data & H1 & H2 & H3 & H4).
  unfold fetchData, getCookie. cbn. rewrite Hc, Ht. cbn. rewrite Hp. cbn.
  rewrite H1. cbn. rewrite H2. cbn. rewrite Ht'. cbn. rewrite H3. cbn. rewrite H4. cbn.
  eexists. split; [reflexivity|]. split.
  - intros response l later Hr. cbn. rewrite Hr. cbn. now destruct l.
  - intros settlement x later [-> | (response & -> & Hr)]; cbn; [reflexivity|].
    rewrite Hr. reflexivity.
Qed.

(** X6. With a [user] cookie whose parsed value carries a truthy [data.id],
    mounting keeps the loading message up and issues exactly the catalog
    request for that id. When the request is fulfilled and [JsonApiParse]
    reads a list out of the response, that list becomes the fetched list
    (the empty list when the parsed response has none), loading ends without
    an error, the id is kept as [userId], nothing is parked and the screen
    shows one tile per fetched object. *)
Theorem catalog_arrives (host : Host) (cookie value : string) (parsedJson id : JsVal) :
  getCookieByName cookie "user" = Some value ->
  value <> EmptyString ->
  JSON_parse host value = Ok parsedJson ->
  sessionIdOf parsedJson = Ok id ->
  Js.truthy id = true ->
  let rt := mount host cookie in
  requests (env rt) = [catalogRequest host id]
  /\ view rt = LoadingMessage "Loading your learning objects..."
  /\ forall response l,
       JsonApiParse host response = Ok {| Models.learningObjectList := l |} ->
       let fetched := match l with Some l' => l' | None => [] end in
       let rt' := step rt (Settle 0 (Fulfilled response)) in
       comp (env rt') = catalogState id fetched
       /\ effects (env rt') = effects (env rt)
       /\ pending rt' = []
       /\ tilesOnScreen rt' = js_map (inline_item false) fetched.
Proof.
  intros Hc Hne Hp Hid Ht rt.
  destruct (fetchData_continuation host cookie value parsedJson id Hc Hne Hp Hid Ht)
    as (k & Hf & Hok & _).
  subst rt. rewrite mount_unfold, Hf. cbn [absorb app].
  rewrite render_env, render_view. cbn [env comp].
  split; [reflexivity|]. split; [reflexivity|].
  intros response l Hr. cbv zeta. cbn [step].
  rewrite render_pending. cbn [pending nth_error]. rewrite (Hok response l _ Hr).
  cbn [absorb remove_nth]. unfold tilesOnScreen.
  rewrite render_env, render_pending, render_view. cbn [env pending comp].
  repeat split.
  unfold viewOf, SakshiEnrolledLearningObjects, catalogState. cbn.
  destruct l as [[|c l]|]; reflexivity.
Qed.

Lemma catalog_arrives_witness :
  comp (env Demo.loaded) = catalogState (VStr "42") [Demo.intro; Demo.advanced]
  /\ effects (env Demo.loaded) = effects (env (mount Demo.host Demo.cookie))
  /\ pending Demo.loaded = []
  /\ tilesOnScreen Demo.loaded = js_map (inline_item false) [Demo.intro; Demo.advanced].
Proof.
  apply (proj2 (proj2 (catalog_arrives Demo.host Demo.cookie Demo.user_json
                         (VObj [("data", VObj [("id", VStr "42")])]) (VStr "42")
                         eq_refl ltac:(discriminate) eq_refl eq_refl eq_refl))
           (VStr "catalog") (Some [Demo.intro; Demo.advanced])).
  reflexivity.
Defined.



(** ** Filter and tiles, further *)

Lemma lowerChar_whitespace (c : ascii) :
  JsString.isWhiteSpace (JsString.lowerChar c) = JsString.isWhiteSpace c.
Proof.
  destruct c as [[] [] [] [] [] [] [] []]; reflexivity.
Qed.

Lemma Blank_toLowerCase (s : string) : Blank (JsString.toLowerCase s) <-> Blank s.
Proof.
  unfold Blank. induction s as [|c s IH]; cbn [JsString.toLowerCase list_ascii_of_string].
  - tauto.
  - split; intros H; inversion H as [|? ? Hc Hs]; subst; constructor;
      try (now apply IH); now rewrite ?lowerChar_whitespace in *.
Qed.

Lemma isEmpty_trim_same (s t : string) :
  (Blank s <-> Blank t) ->
  JsString.isEmpty (JsString.trim s) = JsString.isEmpty (JsString.trim t).
Proof.
  intros H.
  destruct (JsString.isEmpty (JsString.trim s)) eqn:Es;
    destruct (JsString.isEmpty (JsString.trim t)) eqn:Et; try reflexivity.
  - apply trim_blank, H, trim_blank in Es. congruence.
  - apply trim_blank, H, trim_blank in Et. congruence.
Qed.

(** X8. The search does not see the letter case of the term: two terms with
    the same lower-case form select the same objects, in the same order,
    from every fetched list. *)
Theorem search_ignores_term_case (learningObjects : list Models.PrimeLearningObject)
    (term term' : string) :
  JsString.toLowerCase term = JsString.toLowerCase term' ->
  filteredCourses learningObjects term = filteredCourses learningObjects term'.
Proof.
  intros H. unfold filteredCourses.
  rewrite (isEmpty_trim_same term term').
  - now rewrite H.
  - rewrite <- (Blank_toLowerCase term), <- (Blank_toLowerCase term'). now rewrite H.
Qed.

Lemma search_ignores_term_case_witness :
  filteredCourses [Demo.intro; Demo.advanced] "DeEp"
  = filteredCourses [Demo.intro; Demo.advanced] "deep".
Proof.
  apply (search_ignores_term_case [Demo.intro; Demo.advanced] "DeEp" "deep").
  reflexivity.
Defined.

Lemma filter_twice {A : Type} (f : A -> bool) (l : list A) :
  filter f (filter f l) = filter f l.
Proof.
  induction l as [|x l IH]; [reflexivity|]. cbn [filter].
  destruct (f x) eqn:E; [|exact IH]. cbn [filter]. now rewrite E, IH.
Qed.

(** X9. Searching only ever leaves objects out: every object of the
    filtered list is an object of the fetched list, the filtered list is no
    longer than the fetched one, and searching the result again with the
    same term changes nothing. *)
Theorem filteredCourses_narrows (learningObjects : list Models.PrimeLearningObject)
    (term : string) :
  (forall course, In course (filteredCourses learningObjects term) -> In course learningObjects)
  /\ List.length (filteredCourses learningObjects term) <= List.length learningObjects
  /\ filteredCourses (filteredCourses learningObjects term) term
     = filteredCourses learningObjects term.
Proof.
  unfold filteredCourses.
  destruct (JsString.isEmpty (JsString.trim term)).
  - repeat split; auto.
  - split; [|split].
    + intros course H. now apply filter_In in H.
    + apply filter_length_le.
    + apply filter_twice.
Qed.

Lemma orElse_nonempty (o : option string) (dflt : string) :
  dflt <> EmptyString -> Js.orElse o dflt <> EmptyString.
Proof.
  intros H. unfold Js.orElse, Js.truthyStr.
  destruct o as [[|c s]|]; cbn; try exact H. discriminate.
Qed.

(** X10. A tile never shows an empty field: its title, the alternative text
    and the source of its image and its description are non-empty whatever
    the learning object holds, the image falls back to the same fixed
    picture when loading it fails, and the description shown is at most 103
    characters long. *)
Theorem card_fields_filled (flag : bool) (course : Models.PrimeLearningObject)
    (index : nat) (card : Card) :
  inline_item flag course index = Some card ->
  title card <> EmptyString
  /\ img_alt card <> EmptyString
  /\ img_src card <> EmptyString
  /\ descriptionText card <> EmptyString
  /\ String.length (descriptionText card) <= 103
  /\ img_onError_src card
     = "https://img.freepik.com/free-vector/online-certification-illustration_23-2148575636.jpg?semt=ais_hybrid&w=740".
Proof.
  unfold inline_item.
  destruct (Models.localizedMetadata course) as [[|m rest]|]; try discriminate.
  intros H. injection H as <-.
  cbn [title img_alt img_src img_onError_src descriptionText].
  assert (Hd : forall text : string,
             text = (if Js.truthyStr (Models.description m)
                     then
                       let description :=
                         match Models.description m with Some d => d | None => EmptyString end in
                       if 100 <? String.length description
                       then (JsString.substring description 0 100 ++ "...")%string
                       else description
                     else "No description available") ->
             text <> EmptyString /\ String.length text <= 103).
  { intros text ->. unfold Js.truthyStr.
    destruct (Models.description m) as [[|c d]|]; cbn [JsString.isEmpty negb].
    - split; [discriminate | cbn; lia].
    - cbv zeta. destruct (Nat.ltb_spec 100 (String.length (String c d))) as [Hlong|Hshort].
      + rewrite js_substring_firstChars by lia.
        rewrite string_length_app, firstChars_length by lia.
        split; [|cbn; lia].
        intros E. apply (f_equal String.length) in E.
        rewrite string_length_app, firstChars_length in E by lia. cbn in E. lia.
      + split; [discriminate | lia].
    - split; [discriminate | cbn; lia]. }
  destruct (Hd _ eq_refl) as [Hd1 Hd2].
  repeat split; try (apply orElse_nonempty; discriminate); assumption.
Qed.

Lemma card_fields_filled_witness :
  exists card,
    inline_item false Demo.intro 0 = Some card
    /\ title card <> EmptyString
    /\ img_alt card <> EmptyString
    /\ img_src card <> EmptyString
    /\ descriptionText card <> EmptyString
    /\ String.length (descriptionText card) <= 103.
Proof.
  eexists. split; [reflexivity|].
  pose proof (card_fields_filled false Demo.intro 0 _ eq_refl) as (H1 & H2 & H3 & H4 & H5 & _).
  repeat split; assumption.
Defined.

Lemma map_from_length {A B : Type} (f : A -> nat -> B) (l : list A) (k : nat) :
  List.length (map_from f k l) = List.length l.
Proof.
  revert k. induction l as [|x l IH]; intros k; cbn; [reflexivity|]. now rewrite IH.
Qed.

Lemma inline_item_None (flag : bool) (course : Models.PrimeLearningObject) (index : nat) :
  inline_item flag course index = None <-> firstLocalizedMetadata course = None.
Proof.
  unfold inline_item, firstLocalizedMetadata.
  destruct (Models.localizedMetadata course) as [[|m rest]|]; split; congruence.
Qed.

(** X11. The inline grid has one slot per object of the filtered list, in
    order: the slot of an object that has a first metadata entry holds a
    card whose key is its position, the slot of an object without one is
    empty; and under a search term that is not blank no slot is empty. *)
Theorem grid_slots (flag : bool) (learningObjects : list Models.PrimeLearningObject)
    (term : string) :
  let filtered := filteredCourses learningObjects term in
  let tiles := js_map (inline_item flag) filtered in
  List.length tiles = List.length filtered
  /\ (forall i course,
        nth_error filtered i = Some course ->
        (firstLocalizedMetadata course = None /\ nth_error tiles i = Some None)
        \/ (exists card, firstLocalizedMetadata course <> None
                         /\ nth_error tiles i = Some (Some card) /\ key card = i))
  /\ (~ Blank term -> forall i, nth_error tiles i <> Some None).
Proof.
  intros filtered tiles.
  assert (Hslot : forall i course,
             nth_error filtered i = Some course ->
             (firstLocalizedMetadata course = None /\ nth_error tiles i = Some None)
             \/ (exists card, firstLocalizedMetadata course <> None
                              /\ nth_error tiles i = Some (Some card) /\ key card = i)).
  { intros i course Hi. subst tiles. rewrite nth_error_js_map, Hi. cbn [option_map].
    destruct (inline_item flag course i) as [card|] eqn:E.
    - right. exists card. split; [|split; [reflexivity|]].
      + intros Hn. apply (inline_item_None flag course i) in Hn. congruence.
      + unfold inline_item in E.
        destruct (Models.localizedMetadata course) as [[|m rest]|]; try discriminate.
        now injection E as <-.
    - left. split; [|reflexivity]. now apply (inline_item_None flag course i). }
  split; [apply map_from_length|]. split; [exact Hslot|].
  intros Hnb i Hnone.
  assert (Hi : exists course, nth_error filtered i = Some course).
  { subst tiles. rewrite nth_error_js_map in Hnone.
    destruct (nth_error filtered i) as [course|]; [eauto | discriminate Hnone]. }
  destruct Hi as [course Hi].
  destruct (Hslot i course Hi) as [[Hm _] | (card & _ & Hc & _)]; [|congruence].
  apply nth_error_In in Hi. subst filtered. unfold filteredCourses in Hi.
  destruct (JsString.isEmpty (JsString.trim term)) eqn:Et.
  { apply trim_blank in Et. contradiction. }
  apply filter_In in Hi as [_ Hkeep]. unfold firstLocalizedMetadata in Hm.
  destruct (Models.localizedMetadata course) as [[|m rest]|]; discriminate.
Qed.

Lemma grid_slots_witness :
  nth_error (js_map (inline_item false) (filteredCourses [Demo.intro; Demo.advanced] "deep")) 0
  <> Some None.
Proof.
  refine (proj2 (proj2 (grid_slots false [Demo.intro; Demo.advanced] "deep")) _ 0).
  unfold Blank. cbn. intros H. inversion H as [|? ? Hc _]. discriminate Hc.
Defined.

(** ** The event loop, further *)

Lemma Quiet_Harmless (shown : list Effect) : Quiet shown -> Forall Harmless shown.
Proof.
  unfold Quiet. apply Forall_impl. intros [q| | | |]; cbn; tauto.
Qed.

(** An event only adds effects, and none of them is an unhandled rejection
    or a catalog request. *)
Lemma step_effects (rt : Runtime) (ev : Event) :
  Invariant rt ->
  exists added,
    effects (env (step rt ev)) = (effects (env rt) ++ added)%list
    /\ Forall Harmless added.
Proof.
  intros (Hv & _ & Hph).
  assert (Hnil : exists added,
             effects (env rt) = (effects (env rt) ++ added)%list /\ Forall Harmless added).
  { exists []. split; [now rewrite app_nil_r | constructor]. }
  destruct ev as [i|text|j s|cookie].
  - destruct (step_click rt i) as [(card & Htile & ->) | ->]; [|exact Hnil].
    rewrite render_env.
    destruct (apiCallInProgress (comp (env rt))) eqn:Hflag.
    + rewrite (click_in_flight rt card i Hv Htile Hflag). cbn [env effects].
      eexists. split; [reflexivity|]. repeat constructor.
    + destruct (tile_on_screen rt i card Hv Htile) as (_ & course & _ & Hitem).
      apply inline_item_link in Hitem. unfold dispatchClick. rewrite Hitem, Hflag.
      destruct (getCookieByName (document_cookie (env rt)) "alm_cp_token")
        as [[|c token]|] eqn:Htok.
      * rewrite check_without_token by (cbn [document_cookie]; now rewrite Htok).
        cbn. eexists. split; [reflexivity|]. repeat constructor.
      * destruct (check_with_token (Models.id course) (String c token)
                    (mkEnv (comp (env rt)) (document_cookie (env rt)) (effects (env rt)) false)
                    Htok ltac:(discriminate)) as (k & -> & _).
        cbn. eexists. split; [reflexivity|]. repeat constructor.
      * rewrite check_without_token by (cbn [document_cookie]; now rewrite Htok).
        cbn. eexists. split; [reflexivity|]. repeat constructor.
  - cbn [step]. destruct (view rt) as [?|?|[box|] listing]; exact Hnil.
  - cbn [step]. destruct (nth_error (pending rt) j) as [[q k]|] eqn:En; [|exact Hnil].
    destruct Hph as [(_ & _ & q0 & k0 & Hpend & _ & Hk)
                    | [(_ & _ & Hpend) | (_ & _ & q0 & k0 & Hpend & _ & Hk)]];
      rewrite Hpend in En |- *.
    + destruct j as [|j]; [|destruct j; discriminate En].
      injection En as <- <-.
      destruct (Hk s (env rt)) as (after & shown & -> & _ & _ & _ & _ & He & Hq).
      cbn. rewrite render_env. cbn [env]. exists shown. split; [exact He|].
      now apply Quiet_Harmless.
    + destruct j; discriminate En.
    + destruct j as [|j]; [|destruct j; discriminate En].
      injection En as <- <-.
      destruct (Hk s (env rt)) as (shown & -> & Hq).
      cbn. rewrite render_env. cbn [env effects]. exists shown. split; [reflexivity|].
      now apply Quiet_Harmless.
  - exact Hnil.
Qed.

Lemma Harmless_catalog (added : list Effect) :
  Forall Harmless added ->
  filter (fun q => negb (isAxiosGet q))
    (flat_map (fun x => match x with Issued q => [q] | _ => [] end) added) = [].
Proof.
  induction 1 as [|x l Hx _ IH]; [reflexivity|].
  destruct x as [[u h|u p]| | | |]; cbn in *; try exact IH. contradiction.
Qed.

Lemma mount_effects (host : Host) (cookie : string) :
  (forall x, ~ In (UnhandledRejection x) (effects (env (mount host cookie))))
  /\ List.length (catalogRequests (env (mount host cookie))) <= 1.
Proof.
  rewrite mount_unfold.
  destruct (getCookieByName cookie "user") as [[|c value]|] eqn:Hc.
  - rewrite fetchData_no_cookie by now rewrite Hc. cbn [absorb app]. rewrite !render_env. unfold catalogRequests, requests. cbn. split; [intros x []|lia].
  - assert (Hne : String c value <> EmptyString) by discriminate.
    destruct (JSON_parse host (String c value)) as [parsedJson|x] eqn:Hp.
    + destruct (sessionIdOf_total parsedJson) as [id Hid].
      destruct (Js.truthy id) eqn:Ht.
      * destruct (fetchData_fetches host cookie (String c value) parsedJson id Hc Hne Hp Hid Ht)
          as (k & -> & _).
        cbn [absorb app]. rewrite !render_env. unfold catalogRequests, requests. cbn. split; [intros x [H|[]]; discriminate H | lia].
      * rewrite (fetchData_no_id host cookie (String c value) parsedJson id Hc Hne Hp Hid Ht).
        cbn [absorb app]. rewrite !render_env. unfold catalogRequests, requests. cbn. split; [intros x []|lia].
    + rewrite (fetchData_malformed host cookie (String c value) x Hc Hne Hp).
      cbn [absorb app]. rewrite !render_env. unfold catalogRequests, requests. cbn. split; [intros y [H|[]]; discriminate H | lia].
  - rewrite fetchData_no_cookie by now rewrite Hc. cbn [absorb app]. rewrite !render_env. unfold catalogRequests, requests. cbn. split; [intros x []|lia].
Qed.

(** X15. Over the whole life of the mounted component no promise is ever
    rejected unhandled (both [async] functions catch what they throw), and
    the catalog is requested at most once: no event makes the component
    fetch it again. *)
Theorem never_rejects_never_refetches (host : Host) (rt : Runtime) :
  reachable host rt ->
  (forall x, ~ In (UnhandledRejection x) (effects (env rt)))
  /\ List.length (catalogRequests (env rt)) <= 1.
Proof.
  intros Hreach.
  induction Hreach as [cookie | rt ev Hreach [IH1 IH2]]; [apply mount_effects|].
  destruct (step_effects rt ev (reachable_Invariant host rt Hreach)) as (added & He & Hadd).
  split.
  - intros x Hin. rewrite He in Hin. apply in_app_or in Hin as [Hin|Hin].
    + exact (IH1 x Hin).
    + rewrite Forall_forall in Hadd. exact (Hadd _ Hin).
  - unfold catalogRequests, requests in *. rewrite He, flat_map_app, filter_app.
    rewrite (Harmless_catalog added Hadd), app_nil_r. exact IH2.
Qed.

Lemma never_rejects_never_refetches_witness :
  (forall x, ~ In (UnhandledRejection x) (effects (env Demo.checking)))
  /\ List.length (catalogRequests (env Demo.checking)) <= 1.
Proof.
  apply (never_rejects_never_refetches Demo.host Demo.checking).
  unfold Demo.checking, Demo.loaded.
  apply reachable_step. apply reachable_step. apply reachable_mount.
Defined.

(** X16. The loading message is on screen exactly while the catalog request
    is outstanding: in every reachable state the view is the loading message
    if and only if [isLoading] is set, and that if and only if the one parked
    call is the catalog request. *)
Theorem loading_while_fetching (host : Host) (rt : Runtime) :
  reachable host rt ->
  (view rt = LoadingMessage "Loading your learning objects..."
   <-> isLoading (comp (env rt)) = true)
  /\ (isLoading (comp (env rt)) = true
      <-> exists q k, pending rt = [(q, k)] /\ isAxiosGet q = false).
Proof.
  intros Hreach. pose proof (reachable_Invariant host rt Hreach) as (Hv & _ & Hph).
  split.
  - rewrite Hv. unfold viewOf, SakshiEnrolledLearningObjects. cbn [snd].
    destruct (isLoading (comp (env rt))); [tauto|].
    split; [|discriminate]. destruct (Js.truthyStr _); discriminate.
  - destruct Hph as [(Hl & _ & q & k & Hp & Hq & _)
                    | [(Hl & _ & Hp) | (Hl & _ & q & k & Hp & Hq & _)]];
      rewrite Hl, Hp; split; try discriminate; eauto.
    + intros (q' & k' & H & _). discriminate H.
    + intros (q' & k' & H & Hq'). injection H as <- _. congruence.
Qed.

Lemma loading_while_fetching_witness :
  (view (mount Demo.host Demo.cookie) = LoadingMessage "Loading your learning objects..."
   <-> isLoading (comp (env (mount Demo.host Demo.cookie))) = true)
  /\ (isLoading (comp (env (mount Demo.host Demo.cookie))) = true
      <-> exists q k, pending (mount Demo.host Demo.cookie) = [(q, k)]
                      /\ isAxiosGet q = false).
Proof.
  apply (loading_while_fetching Demo.host (mount Demo.host Demo.cookie)).
  apply reachable_mount.
Defined.

Lemma courseGrid_item_link (flag : bool) (course : Models.PrimeLearningObject) (index : nat)
    (card : Card) :
  courseGrid_item flag course index = Some card ->
  onClick card = courseGrid_checkCourseAvailability flag (Models.id course).
Proof.
  unfold courseGrid_item.
  destruct (Models.localizedMetadata course) as [[|m rest]|]; try discriminate.
  intros H. injection H as <-. reflexivity.
Qed.

(** X17. The memoized grid is recomputed only when the fetched list is
    replaced, which happens with the flag down: in every reachable state it
    is the grid of the whole current fetched list, and each of its handlers
    is the one created with [apiCallInProgress] false, also while a check is
    in flight. *)
Theorem memoized_grid_is_stale (host : Host) (rt : Runtime) :
  reachable host rt ->
  exists cell,
    memo rt = Some cell
    /\ memo_value cell
       = js_map (courseGrid_item false) (learningObjects (comp (env rt)))
    /\ forall i card,
         nth_error (memo_value cell) i = Some (Some card) ->
         exists course,
           nth_error (learningObjects (comp (env rt))) i = Some course
           /\ onClick card = courseGrid_checkCourseAvailability false (Models.id course).
Proof.
  intros Hreach.
  pose proof (reachable_Invariant host rt Hreach) as (_ & (cell & Hm & _ & Hval) & _).
  exists cell. split; [exact Hm|]. split; [exact Hval|].
  intros i card Hi. rewrite Hval in Hi. unfold courseGrid_compute in Hi.
  rewrite nth_error_js_map in Hi.
  destruct (nth_error (learningObjects (comp (env rt))) i) as [course|]; [|discriminate Hi].
  exists course. split; [reflexivity|]. cbn [option_map] in Hi. injection Hi as Hi.
  now apply courseGrid_item_link in Hi.
Qed.

Lemma memoized_grid_is_stale_witness :
  exists cell,
    memo Demo.checking = Some cell
    /\ memo_value cell
       = js_map (courseGrid_item false) (learningObjects (comp (env Demo.checking)))
    /\ forall i card,
         nth_error (memo_value cell) i = Some (Some card) ->
         exists course,
           nth_error (learningObjects (comp (env Demo.checking))) i = Some course
           /\ onClick card = courseGrid_checkCourseAvailability false (Models.id course).
Proof.
  apply (memoized_grid_is_stale Demo.host Demo.checking).
  unfold Demo.checking, Demo.loaded.
  apply reachable_step. apply reachable_step. apply reachable_mount.
Defined.

(** X12. Typing into the search box is local: the input shows the typed
    text, the search term becomes that text and no other state cell changes,
    no effect is produced, nothing is parked or settled, and the grid on
    screen holds the tiles of the objects the filter keeps for that text. *)
Theorem typing_updates_search (host : Host) (rt : Runtime) (text : string)
    (box : SearchContainer) (listing : Listing) :
  reachable host rt ->
  view rt = Loaded (Some box) listing ->
  let rt' := step rt (TypeSearch text) in
  comp (env rt') = withSearchTerm text (comp (env rt))
  /\ effects (env rt') = effects (env rt)
  /\ pending rt' = pending rt
  /\ (exists box' listing', view rt' = Loaded (Some box') listing' /\ input_value box' = text)
  /\ tilesOnScreen rt'
     = js_map (inline_item (apiCallInProgress (comp (env rt))))
         (filteredCourses (learningObjects (comp (env rt))) text).
Proof.
  intros Hreach Hview rt'.
  pose proof (reachable_Invariant host rt Hreach) as (Hv & _ & _).
  assert (Hs : isLoading (comp (env rt)) = false
               /\ Js.truthyStr (error (comp (env rt))) = false
               /\ (0 <? List.length (learningObjects (comp (env rt)))) = true).
  { rewrite Hv in Hview. unfold viewOf, SakshiEnrolledLearningObjects in Hview.
    cbn [snd] in Hview.
    destruct (isLoading (comp (env rt))); [discriminate|].
    destruct (Js.truthyStr (error (comp (env rt)))); [discriminate|].
    destruct (0 <? List.length (learningObjects (comp (env rt)))); [auto|discriminate]. }
  destruct Hs as (Hl & He & Hn).
  subst rt'. cbn [step]. rewrite Hview. cbn [setSearchTerm setState absorb].
  unfold tilesOnScreen.
  rewrite render_env, render_pending, render_view. cbn [env pending comp].
  fold (withSearchTerm text (comp (env rt))).
  split; [reflexivity|]. split; [reflexivity|]. split; [reflexivity|].
  unfold viewOf, SakshiEnrolledLearningObjects, withSearchTerm. cbn [snd].
  cbn [isLoading error learningObjects searchTerm apiCallInProgress].
  rewrite Hl, He, Hn. split.
  - eexists. eexists. split; reflexivity.
  - destruct (filteredCourses (learningObjects (comp (env rt))) text); reflexivity.
Qed.

Lemma typing_updates_search_witness :
  let rt' := step Demo.loaded (TypeSearch "deep") in
  comp (env rt') = withSearchTerm "deep" (comp (env Demo.loaded))
  /\ effects (env rt') = effects (env Demo.loaded)
  /\ pending rt' = pending Demo.loaded
  /\ (exists box' listing', view rt' = Loaded (Some box') listing' /\ input_value box' = "deep")
  /\ tilesOnScreen rt'
     = js_map (inline_item (apiCallInProgress (comp (env Demo.loaded))))
         (filteredCourses (learningObjects (comp (env Demo.loaded))) "deep").
Proof.
  apply (typing_updates_search Demo.host Demo.loaded "deep"
           {| input_value := ""; resultsCount := None |}
           (CourseGrid (js_map (inline_item false) [Demo.intro; Demo.advanced]))).
  - unfold Demo.loaded. apply reachable_step. apply reachable_mount.
  - reflexivity.
Defined.

Lemma entered_click_does_not_navigate_witness :
  navigations (env (step Demo.loaded (Click 0))) = navigations (env Demo.loaded).
Proof.
  apply (entered_click_does_not_navigate Demo.host Demo.loaded 0).
  - unfold Demo.loaded. apply reachable_step. apply reachable_mount.
  - reflexivity.
Defined.
